(** * Tasmota testing and provisioning tool

    A shallow embedding of [Tool/mqtt_tester.py]: the sensor validator, the
    discovery sweep, the two provisioning strategies, the telemetry
    validation loop and the orchestrator that assembles the run report,
    followed by the properties of the design document that were checked
    against them.

    Python values are modelled as they come out of [json.loads]; floats are
    binary64 ([PrimFloat]), integers are unbounded ([Z]), dictionaries are
    association lists in insertion order.  Exceptions are explicit: a
    function that can raise returns an [outcome]. *)

From Stdlib Require Import Floats ZArith String Ascii List Bool Lia.
From Stdlib Require Import Permutation DecimalString.
Import ListNotations.

Set Warnings "-register-all,-inexact-float".
Local Open Scope string_scope.
Local Open Scope list_scope.

Infix "+:+" := String.append (at level 60, right associativity) : string_scope.

(* ================================================================== *)
(** ** Python values and exceptions *)
(* ================================================================== *)

Module Py.

(** What [json.loads] can produce, which is also what the dataclass fields
    typed [Any] or [Optional[str]] hold at run time. *)
Inductive value : Type :=
| VNone
| VBool (b : bool)
| VInt (z : Z)
| VFloat (f : float)
| VStr (s : string)
| VList (l : list value)
| VDict (d : list (string * value)).

Inductive exn_class : Type :=
| TypeError | AttributeError | OverflowError | ValueError | KeyError
| JSONDecodeError | OtherError.

Record exn : Type := Exn { exn_kind : exn_class; exn_text : string }.

(** Result of a call that may raise. *)
Inductive outcome (A : Type) : Type :=
| Returns (a : A)
| Raises (e : exn).
Arguments Returns {A} a.
Arguments Raises {A} e.

Definition bind {A B} (m : outcome A) (k : A -> outcome B) : outcome B :=
  match m with
  | Returns a => k a
  | Raises e => Raises e
  end.

(** [type(v).__name__] *)
Definition type_name (v : value) : string :=
  match v with
  | VNone => "NoneType"
  | VBool _ => "bool"
  | VInt _ => "int"
  | VFloat _ => "float"
  | VStr _ => "str"
  | VList _ => "list"
  | VDict _ => "dict"
  end.

(** [d.get(k)] on the association list of a dict: the binding of [k]. *)
Fixpoint dict_get {A : Type} (k : string) (d : list (string * A)) : option A :=
  match d with
  | [] => None
  | (k', v) :: d' => if String.eqb k k' then Some v else dict_get k d'
  end.

(** [d[k] = v]: an existing key keeps its position, a new one goes last. *)
Fixpoint dict_set {A : Type} (k : string) (v : A) (d : list (string * A))
  : list (string * A) :=
  match d with
  | [] => [(k, v)]
  | (k', v') :: d' =>
      if String.eqb k k' then (k, v) :: d' else (k', v') :: dict_set k v d'
  end.

(** [sub in s] for two strings. *)
Fixpoint str_contains (sub s : string) : bool :=
  String.prefix sub s ||
  match s with
  | EmptyString => false
  | String _ s' => str_contains sub s'
  end.

(** [k in v] for a string [k]: key test on a dict, element test on a list,
    substring test on a string, [TypeError] on anything else. *)
Definition contains (k : string) (v : value) : outcome bool :=
  match v with
  | VDict d => Returns (match dict_get k d with Some _ => true | None => false end)
  | VList l =>
      Returns (existsb (fun x => match x with
                                 | VStr s => String.eqb s k
                                 | _ => false
                                 end) l)
  | VStr s => Returns (str_contains k s)
  | _ => Raises (Exn TypeError
                   ("argument of type '" +:+ type_name v +:+ "' is not iterable"))
  end.

(** [v.get(k, dflt)]: only dicts have the method. *)
Definition get (v : value) (k : string) (dflt : value) : outcome value :=
  match v with
  | VDict d => Returns (match dict_get k d with Some x => x | None => dflt end)
  | _ => Raises (Exn AttributeError
                   ("'" +:+ type_name v +:+ "' object has no attribute 'get'"))
  end.

(** [v[k]] for a string key: a dict is looked up, a list or a string refuses
    the index, the other types are not subscriptable. *)
Definition getitem (v : value) (k : string) : outcome value :=
  match v with
  | VDict d =>
      match dict_get k d with
      | Some x => Returns x
      | None => Raises (Exn KeyError ("'" +:+ k +:+ "'"))
      end
  | VList _ => Raises (Exn TypeError "list indices must be integers or slices, not str")
  | VStr _ => Raises (Exn TypeError "string indices must be integers")
  | _ => Raises (Exn TypeError
                   ("'" +:+ type_name v +:+ "' object is not subscriptable"))
  end.

(** Truth value of an object, as [if v], [not v] and [a or b] take it. *)
Definition truthy (v : value) : bool :=
  match v with
  | VNone => false
  | VBool b => b
  | VInt z => negb (Z.eqb z 0)
  | VFloat f => negb (PrimFloat.eqb f 0%float)
  | VStr s => negb (String.eqb s "")
  | VList l => match l with [] => false | _ => true end
  | VDict d => match d with [] => false | _ => true end
  end.

(** Truth value of an optional string argument ([None] and [""] are false). *)
Definition truthy_str (o : option string) : bool :=
  match o with
  | Some s => negb (String.eqb s "")
  | None => false
  end.

Definition of_opt_str (o : option string) : value :=
  match o with
  | Some s => VStr s
  | None => VNone
  end.

(** [str(o)] of an optional string, as an f-string interpolates it. *)
Definition str_opt (o : option string) : string :=
  match o with
  | Some s => s
  | None => "None"
  end.

(** [v == s] for a string constant [s]. *)
Definition eq_str (v : value) (s : string) : bool :=
  match v with
  | VStr s' => String.eqb s' s
  | _ => false
  end.

(** [[r for r in results if r]] when every object in the list is truthy:
    only [None] is dropped. *)
Fixpoint somes {A : Type} (l : list (option A)) : list A :=
  match l with
  | [] => []
  | Some a :: l' => a :: somes l'
  | None :: l' => somes l'
  end.

(** [str(z)] for an [int]. *)
Definition str_int (z : Z) : string := NilZero.string_of_int (Z.to_int z).

(** [float(z)] for an [int]: the nearest binary64, ties to even;
    [OverflowError] when that is out of the finite range. *)
Definition float_of_int (z : Z) : outcome float :=
  match SpecFloat.binary_normalize FloatOps.prec FloatOps.emax z 0 false with
  | SpecFloat.S754_infinity _ | SpecFloat.S754_nan =>
      Raises (Exn OverflowError "int too large to convert to float")
  | sf => Returns (FloatOps.SF2Prim sf)
  end.

(** [v == 0.0]: numbers compare by value across [bool], [int] and [float];
    nothing else equals a float. *)
Definition eq_zero (v : value) : bool :=
  match v with
  | VBool b => negb b
  | VInt z => Z.eqb z 0
  | VFloat f => PrimFloat.eqb f 0%float
  | _ => false
  end.

(** The parts of the Python runtime that are taken as given. *)
Class Runtime : Type := {
  (** [float(s)] for a string; [None] stands for [ValueError]. *)
  float_of_str : string -> option float;
  (** [str(x)] of a float, as an f-string interpolates it. *)
  str_float : float -> string;
  (** [str(v)] of a list or a dict. *)
  str_container : value -> string;
  (** [list(set(l))]: the iteration order of a set of strings. *)
  set_to_list : list string -> list string;
  (** [json.loads(s)]; malformed text raises [JSONDecodeError]. *)
  json_loads : string -> outcome value
}.

(** What [list(set(l))] guarantees whatever the iteration order: every
    string of [l], each once. *)
Definition set_semantics (rt : Runtime) : Prop :=
  forall l, NoDup (set_to_list l) /\ forall x, In x (set_to_list l) <-> In x l.

Section WithRuntime.
Context {rt : Runtime}.

(** [float(v)] *)
Definition to_float (v : value) : outcome float :=
  match v with
  | VBool b => Returns (if b then 1%float else 0%float)
  | VInt z => float_of_int z
  | VFloat f => Returns f
  | VStr s =>
      match float_of_str s with
      | Some f => Returns f
      | None => Raises (Exn ValueError
                          ("could not convert string to float: '" +:+ s +:+ "'"))
      end
  | _ => Raises (Exn TypeError
                   ("float() argument must be a string or a real number, not '"
                      +:+ type_name v +:+ "'"))
  end.

(** [str(v)], the interpolation of [v] in an f-string. *)
Definition str (v : value) : string :=
  match v with
  | VNone => "None"
  | VBool b => if b then "True" else "False"
  | VInt z => str_int z
  | VFloat f => str_float f
  | VStr s => s
  | _ => str_container v
  end.

End WithRuntime.

End Py.

Import Py.

(* ================================================================== *)
(** ** Utility functions: the sensor validator *)
(* ================================================================== *)

Section Validator.
Context {rt : Runtime}.

(** The [limits] dictionary, in its insertion order. *)
Definition limits : list (string * (float * float)) :=
  [ ("Temperature", (10.0, 85.0));
    ("Humidity", (0.0, 100.0));
    ("Pressure", (700.0, 1150.0)) ]%float.

(** [min_v <= num_val <= max_v] *)
Definition within (min_v max_v num_val : float) : bool :=
  PrimFloat.leb min_v num_val && PrimFloat.leb num_val max_v.

(** The body of [for key, (min_v, max_v) in limits.items()].  Only
    [ValueError] and [TypeError] are caught around [float(val)]. *)
Definition check_field (s : value) (errs : list string)
    (lim : string * (float * float)) : outcome (list string) :=
  let '(key, (min_v, max_v)) := lim in
  bind (get s key VNone) (fun val =>
    match val with
    | VNone => Returns (errs ++ ["Field " +:+ key +:+ " is missing"])
    | _ =>
        match to_float val with
        | Returns num_val =>
            if negb (within min_v max_v num_val)
            then Returns (errs ++ ["Value " +:+ key +:+ "=" +:+ str_float num_val
                                     +:+ " out of range (" +:+ str_float min_v
                                     +:+ ".." +:+ str_float max_v +:+ ")"])
            else Returns errs
        | Raises e =>
            match exn_kind e with
            | ValueError | TypeError =>
                Returns (errs ++ ["Field " +:+ key +:+ " is not a valid number"])
            | _ => Raises e
            end
        end
    end).

Fixpoint check_fields (lims : list (string * (float * float))) (s : value)
    (errs : list string) : outcome (list string) :=
  match lims with
  | [] => Returns errs
  | lim :: rest => bind (check_field s errs lim) (check_fields rest s)
  end.

(** The closing test
    [if s.get("Temperature") == 0.0 and s.get("Humidity") == 0.0]. *)
Definition suspicious_zero (s : value) (errs : list string)
  : outcome (list string) :=
  bind (get s "Temperature" VNone) (fun t =>
    if eq_zero t then
      bind (get s "Humidity" VNone) (fun h =>
        if eq_zero h then
          Returns (errs ++ ["Suspicious reading: Zero values might indicate sensor communication failure"])
        else Returns errs)
    else Returns errs).

Definition validate_sensor_data (payload : value) (sensor_name : string)
  : outcome (list string) :=
  bind (contains sensor_name payload) (fun present =>
    if negb present then
      Returns ["Sensor '" +:+ sensor_name +:+ "' not found in JSON"]
    else
      bind (get payload sensor_name (VDict [])) (fun s =>
        bind (check_fields limits s []) (suspicious_zero s))).

(** *** What the design document calls a valid sample *)

(** The quantity [key] is present in the block, converts to a number and
    lies within the inclusive bounds. *)
Definition quantity_ok (block : list (string * value)) (key : string)
    (lo hi : float) : Prop :=
  exists v f, dict_get key block = Some v /\
              to_float v = Returns f /\
              within lo hi f = true.

(** Temperature and Humidity are both present and both equal to zero. *)
Definition both_zero (block : list (string * value)) : Prop :=
  exists t h, dict_get "Temperature" block = Some t /\
              dict_get "Humidity" block = Some h /\
              eq_zero t = true /\ eq_zero h = true.

(** The right-hand side of the validator's contract: the named block is
    there, its three quantities are fine, and Temperature and Humidity are
    not both exactly zero. *)
Definition valid_sample (payload : value) (sensor_name : string) : Prop :=
  exists d block,
    payload = VDict d /\
    dict_get sensor_name d = Some (VDict block) /\
    quantity_ok block "Temperature" 10.0 85.0 /\
    quantity_ok block "Humidity" 0.0 100.0 /\
    quantity_ok block "Pressure" 700.0 1150.0 /\
    ~ both_zero block.

(** A payload with one sensor block holding the three quantities. *)
Definition sample (name : string) (t h p : float) : value :=
  VDict [(name, VDict [("Temperature", VFloat t);
                       ("Humidity", VFloat h);
                       ("Pressure", VFloat p)])].

End Validator.

(* ================================================================== *)
(** ** Data structures *)
(* ================================================================== *)

Module DeviceInfo.
Record t : Type := Make {
  ip : string;
  port : Z;
  topic : value;
  model : value;
  discovered_by : string
}.
End DeviceInfo.

Module ProvisionResult.
Record t : Type := Make {
  ok : bool;
  method : string;
  commands_sent : list string;
  responses : value;
  error : option string
}.
End ProvisionResult.

Module MqttValidationResult.
Record t : Type := Make {
  ok : bool;
  received_messages : Z;
  topic : string;
  errors : list string;
  first_payload : option value;
  duration_sec : float
}.
End MqttValidationResult.

(** The parsed command line ([argparse.Namespace]), attributes in the order
    the arguments are declared. *)
Record Args : Type := {
  cidr : option string;
  target_ip : option string;
  provision_via : string;
  mqtt_host : string;
  mqtt_port : Z;
  mqtt_user : option string;
  mqtt_password : option string;
  wifi_ssid : option string;
  wifi_password : option string;
  sensor_name : string;
  teleperiod : Z;
  mqtt_wait_sec : float;
  report_file : option string;
  log : bool
}.

(** [args] with other values for the two password arguments. *)
Definition with_passwords (mqtt_pw wifi_pw : option string) (args : Args) : Args :=
  {| cidr := cidr args;
     target_ip := target_ip args;
     provision_via := provision_via args;
     mqtt_host := mqtt_host args;
     mqtt_port := mqtt_port args;
     mqtt_user := mqtt_user args;
     mqtt_password := mqtt_pw;
     wifi_ssid := wifi_ssid args;
     wifi_password := wifi_pw;
     sensor_name := sensor_name args;
     teleperiod := teleperiod args;
     mqtt_wait_sec := mqtt_wait_sec args;
     report_file := report_file args;
     log := log args |}.

(* ================================================================== *)
(** ** The world outside the process *)
(* ================================================================== *)

(** An HTTP GET: the URL and the query parameters passed beside it. *)
Record request : Type := Request {
  url : string;
  params : list (string * string)
}.

(** What a GET comes back with: the call raises (timeout, refused
    connection), or a response arrives with a status and a body that
    [.json()] either parses or raises on. *)
Inductive http_reply : Type :=
| HttpFails (e : string)
| HttpReplies (status : Z) (json : outcome value).

(** One [send] on an open serial port. *)
Inductive exchange : Type :=
| WriteFails (e : string)
| ReadFails (e : string)
| Responds (r : string).

(** A serial port as the provisioning code sees it: opening, the initial
    sleep and the buffer reset may raise; the [n]-th command sent (from 0)
    gets the exchange [reply n c]. *)
Record SerialLine : Type := {
  setup_error : option string;
  reply : nat -> string -> exchange
}.

(** What the consume loop of the telemetry validator observes. *)
Inductive poll : Type :=
| QueueEmpty
| Message (raw : string).

Inductive event : Type :=
| ConnAck (rc : Z) (rc_text : string)
    (** the network thread runs [on_connect] with reason code [rc] *)
| Poll (elapsed : float) (q : poll)
    (** the loop head reads [time.time() - t0], then waits on the queue *).

(** One broker session: [connect]/[loop_start] may raise; then the events in
    the order they happen; [clock_at_return] is [time.time() - t0] as read
    when the result is built.  The trace ends when the budget has run out. *)
Record MqttSession : Type := {
  connect_error : option string;
  events : list event;
  clock_at_return : float
}.

Record World : Type := {
  http : request -> http_reply;
  (** [ipaddress.ip_network(cidr, strict=False).hosts()], as strings *)
  network_hosts : string -> outcome (list string);
  (** [serial.tools.list_ports.comports()], device names *)
  comports : list string;
  (** the bytes read back after writing the status probe to a port *)
  serial_probe : string -> outcome string;
  serial : string -> SerialLine;
  (** the broker session met when validating the device at an address *)
  mqtt_session : string -> MqttSession;
  (** [utc_now_iso()] when the report is assembled *)
  utc_now_iso : string
}.

(* ================================================================== *)
(** ** Discovery engine *)
(* ================================================================== *)

(** The part of [_probe_ip] that runs on the parsed body of a 200 response. *)
Definition probe_identity (ip : string) (port : Z) (data : value)
  : outcome (option DeviceInfo.t) :=
  bind (contains "Status" data) (fun present =>
    if present then
      bind (getitem data "Status") (fun st =>
      bind (get st "Topic" (VStr "unknown")) (fun topic =>
      bind (get st "DeviceName" VNone) (fun device_name =>
      bind (if truthy device_name then Returns device_name
            else get st "FriendlyName" (VStr "Tasmota")) (fun model =>
      Returns (Some (DeviceInfo.Make ip port topic model "http-probe"))))))
    else Returns None).

(** The record a probe builds from the [Status] object [st]. *)
Definition identity_record (ip : string) (port : Z) (st : list (string * value))
  : DeviceInfo.t :=
  let topic := match dict_get "Topic" st with
               | Some t => t
               | None => VStr "unknown"
               end in
  let device_name := match dict_get "DeviceName" st with
                     | Some n => n
                     | None => VNone
                     end in
  let model := if truthy device_name then device_name
               else match dict_get "FriendlyName" st with
                    | Some n => n
                    | None => VStr "Tasmota"
                    end in
  DeviceInfo.Make ip port topic model "http-probe".

(** Every exception is swallowed by the bare [except]. *)
Definition _probe_ip (session : request -> http_reply) (ip : string) (port : Z)
  : option DeviceInfo.t :=
  let url := "http://" +:+ ip +:+ ":" +:+ str_int port +:+ "/cm?cmnd=Status" in
  match session (Request url []) with
  | HttpReplies status (Returns data) =>
      if Z.eqb status 200 then
        match probe_identity ip port data with
        | Returns r => r
        | Raises _ => None
        end
      else None
  | HttpReplies _ (Raises _) => None
  | HttpFails _ => None
  end.

Definition scan_network (w : World) (cidr : string) (port : Z) (concurrency : Z)
  : outcome (list DeviceInfo.t) :=
  bind (network_hosts w cidr) (fun ips =>
    let tasks := map (fun ip => _probe_ip (http w) ip port) ips in
    let results := tasks in
    Returns (somes results)).

(* ================================================================== *)
(** ** Provisioning logic *)
(* ================================================================== *)

(** The list [backlog] of [provision_via_http]. *)
Definition http_backlog (args : Args) : list string :=
  (if truthy_str (wifi_ssid args) then
     ["SSID1 " +:+ str_opt (wifi_ssid args)] ++
     (if truthy_str (wifi_password args)
      then ["Password1 " +:+ str_opt (wifi_password args)] else [])
   else []) ++
  [ "MqttHost " +:+ mqtt_host args;
    "MqttPort " +:+ str_int (mqtt_port args);
    "TelePeriod " +:+ str_int (teleperiod args) ] ++
  (if truthy_str (mqtt_user args)
   then ["MqttUser " +:+ str_opt (mqtt_user args)] else []) ++
  (if truthy_str (mqtt_password args)
   then ["MqttPassword " +:+ str_opt (mqtt_password args)] else []) ++
  ["Restart 1"].

Definition full_cmd (args : Args) : string :=
  "Backlog " +:+ String.concat "; " (http_backlog args).

Definition provision_via_http (w : World) (dev : DeviceInfo.t) (args : Args)
  : ProvisionResult.t :=
  let full_cmd := full_cmd args in
  let req := Request ("http://" +:+ DeviceInfo.ip dev +:+ ":"
                        +:+ str_int (DeviceInfo.port dev) +:+ "/cm")
                     [("cmnd", full_cmd)] in
  match http w req with
  | HttpReplies _ (Returns j) =>
      ProvisionResult.Make true "http" [full_cmd] j None
  | HttpReplies _ (Raises e) =>
      ProvisionResult.Make false "http" [full_cmd] (VDict []) (Some (exn_text e))
  | HttpFails e =>
      ProvisionResult.Make false "http" [full_cmd] (VDict []) (Some e)
  end.

(** The two locals [cmds] and [resps] that [send] mutates; they survive an
    exception and end up in the result either way. *)
Record serial_state : Type := {
  cmds : list string;
  resps : list (string * value)
}.

(** A block of statements over that state: it finishes or raises, and
    leaves the state as it was at that point. *)
Definition block : Type := serial_state -> option string * serial_state.

Definition seq (b1 b2 : block) : block :=
  fun st =>
    match b1 st with
    | (None, st') => b2 st'
    | (Some e, st') => (Some e, st')
    end.

Definition when (c : bool) (b : block) : block :=
  if c then b else (fun st => (None, st)).

Notation "b1 ;; b2" := (seq b1 b2) (at level 61, right associativity).

(** [send(c)]: record the command, write it, then read and record the
    response. *)
Definition send (ser : SerialLine) (c : string) : block :=
  fun st =>
    let st1 := {| cmds := cmds st ++ [c]; resps := resps st |} in
    match reply ser (length (cmds st)) c with
    | WriteFails e => (Some e, st1)
    | ReadFails e => (Some e, st1)
    | Responds r =>
        (None, {| cmds := cmds st1; resps := dict_set c (VStr r) (resps st1) |})
    end.

(** The statements of the [with] body after [send] is defined. *)
Definition serial_body (ser : SerialLine) (args : Args) : block :=
  when (truthy_str (wifi_ssid args))
    (send ser ("SSID1 " +:+ str_opt (wifi_ssid args)) ;;
     when (truthy_str (wifi_password args))
       (send ser ("Password1 " +:+ str_opt (wifi_password args)))) ;;
  send ser ("MqttHost " +:+ mqtt_host args) ;;
  send ser ("MqttPort " +:+ str_int (mqtt_port args)) ;;
  when (truthy_str (mqtt_user args))
    (send ser ("MqttUser " +:+ str_opt (mqtt_user args))) ;;
  when (truthy_str (mqtt_password args))
    (send ser ("MqttPassword " +:+ str_opt (mqtt_password args))) ;;
  send ser ("TelePeriod " +:+ str_int (teleperiod args)) ;;
  send ser "Restart 1".

Definition provision_via_serial (w : World) (port : string) (args : Args)
  : ProvisionResult.t :=
  let ser := serial w port in
  let st0 := {| cmds := []; resps := [] |} in
  match setup_error ser with
  | Some e =>
      ProvisionResult.Make false "serial" (cmds st0) (VDict (resps st0)) (Some e)
  | None =>
      match serial_body ser args st0 with
      | (None, st) =>
          ProvisionResult.Make true "serial" (cmds st) (VDict (resps st)) None
      | (Some e, st) =>
          ProvisionResult.Make false "serial" (cmds st) (VDict (resps st)) (Some e)
      end
  end.

(** The commands [serial_body] passes to [send], in order. *)
Definition serial_commands (args : Args) : list string :=
  (if truthy_str (wifi_ssid args) then
     ["SSID1 " +:+ str_opt (wifi_ssid args)] ++
     (if truthy_str (wifi_password args)
      then ["Password1 " +:+ str_opt (wifi_password args)] else [])
   else []) ++
  [ "MqttHost " +:+ mqtt_host args;
    "MqttPort " +:+ str_int (mqtt_port args) ] ++
  (if truthy_str (mqtt_user args)
   then ["MqttUser " +:+ str_opt (mqtt_user args)] else []) ++
  (if truthy_str (mqtt_password args)
   then ["MqttPassword " +:+ str_opt (mqtt_password args)] else []) ++
  [ "TelePeriod " +:+ str_int (teleperiod args); "Restart 1" ].

(** Sending a list of commands one after the other. *)
Fixpoint send_all (ser : SerialLine) (cs : list string) : block :=
  match cs with
  | [] => fun st => (None, st)
  | c :: cs' => send ser c ;; send_all ser cs'
  end.

(* ================================================================== *)
(** ** MQTT validation *)
(* ================================================================== *)

Section Telemetry.
Context {rt : Runtime}.

(** How the [while] loop is left: by the [return] inside it, or by falling
    out of the [try] with the errors gathered so far (budget over, or an
    exception caught by [except Exception]). *)
Inductive loop_exit : Type :=
| Accepted (data : value)
| Exhausted (errors : list string).

Fixpoint consume (args : Args) (evs : list event) (errors : list string)
  : loop_exit :=
  match evs with
  | [] => Exhausted errors
  | ConnAck rc rc_text :: rest =>
      consume args rest
        (if Z.eqb rc 0 then errors
         else errors ++ ["MQTT Conn Failed: " +:+ rc_text])
  | Poll elapsed q :: rest =>
      if PrimFloat.ltb elapsed (mqtt_wait_sec args) then
        match q with
        | QueueEmpty => consume args rest errors
        | Message raw_json =>
            match json_loads raw_json with
            | Returns data =>
                match validate_sensor_data data (sensor_name args) with
                | Returns [] => Accepted data
                | Returns v_errs => consume args rest (errors ++ v_errs)
                | Raises e =>
                    Exhausted (errors ++ ["MQTT Library Error: " +:+ exn_text e])
                end
            | Raises e =>
                match exn_kind e with
                | JSONDecodeError =>
                    consume args rest (errors ++ ["Invalid JSON received"])
                | _ =>
                    Exhausted (errors ++ ["MQTT Library Error: " +:+ exn_text e])
                end
            end
        end
      else Exhausted errors
  end.

(** The [return] after the [try] statement. *)
Definition no_telemetry (sub_topic : string) (errors : list string)
    (elapsed : float) : MqttValidationResult.t :=
  MqttValidationResult.Make false 0 sub_topic
    (match set_to_list errors with
     | [] => ["No valid telemetry received"]
     | l => l
     end)
    None elapsed.

Definition validate_mqtt_sensor (session : MqttSession) (args : Args)
    (topic : value) : MqttValidationResult.t :=
  let sub_topic := "tele/" +:+ str topic +:+ "/SENSOR" in
  match connect_error session with
  | Some e =>
      no_telemetry sub_topic ["MQTT Library Error: " +:+ e]
        (clock_at_return session)
  | None =>
      match consume args (events session) [] with
      | Accepted data =>
          MqttValidationResult.Make true 1 sub_topic [] (Some data)
            (clock_at_return session)
      | Exhausted errors =>
          no_telemetry sub_topic errors (clock_at_return session)
      end
  end.

(** *** Readings of a run, for the statements below *)

(** The error strings a run appends to [errors], in order, whether or not
    the run ends by accepting a sample. *)
Fixpoint accumulated (args : Args) (evs : list event) : list string :=
  match evs with
  | [] => []
  | ConnAck rc rc_text :: rest =>
      (if Z.eqb rc 0 then [] else ["MQTT Conn Failed: " +:+ rc_text])
        ++ accumulated args rest
  | Poll elapsed q :: rest =>
      if PrimFloat.ltb elapsed (mqtt_wait_sec args) then
        match q with
        | QueueEmpty => accumulated args rest
        | Message raw_json =>
            match json_loads raw_json with
            | Returns data =>
                match validate_sensor_data data (sensor_name args) with
                | Returns [] => []
                | Returns v_errs => v_errs ++ accumulated args rest
                | Raises e => ["MQTT Library Error: " +:+ exn_text e]
                end
            | Raises e =>
                match exn_kind e with
                | JSONDecodeError =>
                    "Invalid JSON received" :: accumulated args rest
                | _ => ["MQTT Library Error: " +:+ exn_text e]
                end
            end
        end
      else []
  end.

(** The same for a whole run, where a failing [connect] is the only error. *)
Definition run_errors (args : Args) (session : MqttSession) : list string :=
  match connect_error session with
  | Some e => ["MQTT Library Error: " +:+ e]
  | None => accumulated args (events session)
  end.

(** An event the loop gets past without accepting and without an exception
    that ends it: a connection acknowledgement, an empty poll, malformed
    JSON, or a sample the validator rejects; polls are within the budget. *)
Definition passed_over (args : Args) (ev : event) : Prop :=
  match ev with
  | ConnAck _ _ => True
  | Poll elapsed q =>
      PrimFloat.ltb elapsed (mqtt_wait_sec args) = true /\
      match q with
      | QueueEmpty => True
      | Message raw_json =>
          (exists e, json_loads raw_json = Raises e /\
                     exn_kind e = JSONDecodeError) \/
          (exists data v_errs,
              json_loads raw_json = Returns data /\
              validate_sensor_data data (sensor_name args) = Returns v_errs /\
              v_errs <> [])
      end
  end.

End Telemetry.

(* ================================================================== *)
(** ** Main orchestrator *)
(* ================================================================== *)

Record Summary : Type := {
  devices_found : Z;
  provisioning_count : Z;
  successful_validations : Z
}.

(** [final_report] *)
Record Report : Type := {
  report_timestamp : string;
  summary : Summary;
  config_used : list (string * value);
  discovered_devices : list DeviceInfo.t;
  provisioning_logs : list (string * ProvisionResult.t);
  mqtt_validation : list (string * MqttValidationResult.t)
}.

(** [vars(args).items()] *)
Definition vars (args : Args) : list (string * value) :=
  [ ("cidr", of_opt_str (cidr args));
    ("target_ip", of_opt_str (target_ip args));
    ("provision_via", VStr (provision_via args));
    ("mqtt_host", VStr (mqtt_host args));
    ("mqtt_port", VInt (mqtt_port args));
    ("mqtt_user", of_opt_str (mqtt_user args));
    ("mqtt_password", of_opt_str (mqtt_password args));
    ("wifi_ssid", of_opt_str (wifi_ssid args));
    ("wifi_password", of_opt_str (wifi_password args));
    ("sensor_name", VStr (sensor_name args));
    ("teleperiod", VInt (teleperiod args));
    ("mqtt_wait_sec", VFloat (mqtt_wait_sec args));
    ("report_file", of_opt_str (report_file args));
    ("log", VBool (log args)) ].

Section Orchestrator.
Context {rt : Runtime}.

(** The loop over the serial ports: the first port whose answer to the
    status probe contains [Status]; a port that raises is skipped. *)
Fixpoint find_port (w : World) (ports : list string) : option string :=
  match ports with
  | [] => None
  | pt :: rest =>
      match serial_probe w pt with
      | Returns answer =>
          if str_contains "Status" answer then Some pt else find_port w rest
      | Raises _ => find_port w rest
      end
  end.

(** The [for d in devices] loop of the HTTP branch. *)
Fixpoint provision_all (w : World) (args : Args) (devices : list DeviceInfo.t)
    (prov_results : list (string * ProvisionResult.t))
  : list (string * ProvisionResult.t) :=
  match devices with
  | [] => prov_results
  | d :: rest =>
      let res := provision_via_http w d args in
      provision_all w args rest (dict_set (DeviceInfo.ip d) res prov_results)
  end.

(** Phase 1: the device list and the provisioning results. *)
Definition provision_and_discover (w : World) (args : Args)
  : outcome (list DeviceInfo.t * list (string * ProvisionResult.t)) :=
  if String.eqb (provision_via args) "serial" then
    let found_port := find_port w (comports w) in
    if truthy_str found_port then
      let res := provision_via_serial w (str_opt found_port) args in
      let prov_results := dict_set (str_opt found_port) res [] in
      if ProvisionResult.ok res && truthy_str (cidr args) then
        bind (scan_network w (str_opt (cidr args)) 80 200) (fun devices =>
          Returns (devices, prov_results))
      else Returns ([], prov_results)
    else Returns ([], [])
  else
    bind (if truthy_str (target_ip args) then
            Returns [DeviceInfo.Make (str_opt (target_ip args)) 80 VNone VNone "manual"]
          else if truthy_str (cidr args) then
            scan_network w (str_opt (cidr args)) 80 200
          else Returns []) (fun devices =>
      if String.eqb (provision_via args) "http"
         && match devices with [] => false | _ => true end
      then Returns (devices, provision_all w args devices [])
      else Returns (devices, [])).

(** The topic refresh at the head of the validation loop; any exception is
    swallowed and leaves the record as it was. *)
Definition refresh_topic (w : World) (d : DeviceInfo.t) : DeviceInfo.t :=
  if negb (truthy (DeviceInfo.topic d)) || eq_str (DeviceInfo.topic d) "unknown"
  then
    match http w (Request ("http://" +:+ DeviceInfo.ip d +:+ "/cm?cmnd=Status") []) with
    | HttpReplies _ (Returns r) =>
        match bind (getitem r "Status") (fun st => getitem st "Topic") with
        | Returns t =>
            DeviceInfo.Make (DeviceInfo.ip d) (DeviceInfo.port d) t
              (DeviceInfo.model d) (DeviceInfo.discovered_by d)
        | Raises _ => d
        end
    | _ => d
    end
  else d.

(** Phase 2: the records as the loop leaves them, and the validation
    results. *)
Fixpoint validate_all (w : World) (args : Args) (devices : list DeviceInfo.t)
    (mqtt_results : list (string * MqttValidationResult.t))
  : list DeviceInfo.t * list (string * MqttValidationResult.t) :=
  match devices with
  | [] => ([], mqtt_results)
  | d :: rest =>
      let d' := refresh_topic w d in
      let mqtt_results' :=
        if truthy (DeviceInfo.topic d') then
          dict_set (DeviceInfo.ip d')
            (validate_mqtt_sensor (mqtt_session w (DeviceInfo.ip d')) args
               (DeviceInfo.topic d'))
            mqtt_results
        else mqtt_results in
      let '(rest', final) := validate_all w args rest mqtt_results' in
      (d' :: rest', final)
  end.

(** Phase 3. *)
Definition final_report (w : World) (args : Args) (devices : list DeviceInfo.t)
    (prov_results : list (string * ProvisionResult.t))
    (mqtt_results : list (string * MqttValidationResult.t)) : Report :=
  {| report_timestamp := utc_now_iso w;
     summary :=
       {| devices_found := Z.of_nat (length devices);
          provisioning_count := Z.of_nat (length prov_results);
          successful_validations :=
            Z.of_nat (length (filter (fun kv => MqttValidationResult.ok (snd kv))
                                     mqtt_results)) |};
     config_used :=
       filter (fun kv => negb (str_contains "password" (fst kv))) (vars args);
     discovered_devices := devices;
     provisioning_logs := prov_results;
     mqtt_validation := mqtt_results |}.

(** [main] up to the point where the report object exists; an exception
    that nothing catches (a malformed network range) ends the run without
    one. *)
Definition main (w : World) (args : Args) : outcome Report :=
  bind (provision_and_discover w args) (fun '(devices, prov_results) =>
    let '(devices', mqtt_results) := validate_all w args devices [] in
    Returns (final_report w args devices' prov_results mqtt_results)).

End Orchestrator.

(* ================================================================== *)
(** ** Concrete configurations and worlds *)
(* ================================================================== *)

Module Sample.

(** A full configuration: WiFi and broker credentials, default port,
    telemetry period and sensor name. *)
Definition args (via : string) : Args :=
  {| cidr := None;
     target_ip := Some "192.168.1.50";
     provision_via := via;
     mqtt_host := "192.168.1.100";
     mqtt_port := 1883;
     mqtt_user := Some "tasmota";
     mqtt_password := Some "s3cret";
     wifi_ssid := Some "lab";
     wifi_password := Some "hunter2";
     sensor_name := "CustomBME280";
     teleperiod := 10;
     mqtt_wait_sec := 45.0%float;
     report_file := None;
     log := false |}.

(** The same with a WiFi password but no SSID and no broker credentials. *)
Definition args_no_ssid (via : string) : Args :=
  {| cidr := None;
     target_ip := Some "192.168.1.50";
     provision_via := via;
     mqtt_host := "192.168.1.100";
     mqtt_port := 1883;
     mqtt_user := None;
     mqtt_password := None;
     wifi_ssid := None;
     wifi_password := Some "hunter2";
     sensor_name := "CustomBME280";
     teleperiod := 10;
     mqtt_wait_sec := 45.0%float;
     report_file := None;
     log := false |}.

Definition device : DeviceInfo.t :=
  DeviceInfo.Make "192.168.1.50" 80 VNone VNone "manual".

(** A serial line that answers every command. *)
Definition line_ok : SerialLine :=
  {| setup_error := None; reply := fun _ _ => Responds "" |}.

(** A serial line whose third write fails. *)
Definition line_third_write_fails : SerialLine :=
  {| setup_error := None;
     reply := fun n _ => if Nat.eqb n 2 then WriteFails "Write timeout"
                         else Responds "" |}.

Definition idle_session : MqttSession :=
  {| connect_error := None; events := []; clock_at_return := 2.0%float |}.

(** A world in which every GET gets [reply] and every serial port behaves
    as [line]; no serial port is listed and no broker message arrives. *)
Definition world (reply : http_reply) (line : SerialLine) : World :=
  {| http := fun _ => reply;
     network_hosts := fun _ => Returns ["192.168.1.1"; "192.168.1.2"];
     comports := [];
     serial_probe := fun _ => Raises (Exn OtherError "could not open port");
     serial := fun _ => line;
     mqtt_session := fun _ => idle_session;
     utc_now_iso := "2026-01-01T00:00:00Z" |}.

(** Two telemetry messages as the broker delivers them, and what
    [json.loads] makes of them: one with Temperature 999, one with plausible
    readings. *)
Definition quoted (s : string) : string :=
  String "034"%char s +:+ String "034"%char "".

Definition raw_hot : string :=
  "{" +:+ quoted "Time" +:+ ":" +:+ quoted "2026-01-01T00:00:01" +:+ ","
      +:+ quoted "CustomBME280" +:+ ":{"
      +:+ quoted "Temperature" +:+ ":999,"
      +:+ quoted "Humidity" +:+ ":45.0,"
      +:+ quoted "Pressure" +:+ ":1013.0},"
      +:+ quoted "TempUnit" +:+ ":" +:+ quoted "C" +:+ "}".

Definition raw_ok : string :=
  "{" +:+ quoted "Time" +:+ ":" +:+ quoted "2026-01-01T00:00:21" +:+ ","
      +:+ quoted "CustomBME280" +:+ ":{"
      +:+ quoted "Temperature" +:+ ":22.5,"
      +:+ quoted "Humidity" +:+ ":45.0,"
      +:+ quoted "Pressure" +:+ ":1013.0},"
      +:+ quoted "TempUnit" +:+ ":" +:+ quoted "C" +:+ "}".

Definition block_hot : value :=
  VDict [("Temperature", VInt 999);
         ("Humidity", VFloat 45.0);
         ("Pressure", VFloat 1013.0)].

Definition block_ok : value :=
  VDict [("Temperature", VFloat 22.5);
         ("Humidity", VFloat 45.0);
         ("Pressure", VFloat 1013.0)].

Definition payload_hot : value :=
  VDict [("Time", VStr "2026-01-01T00:00:01");
         ("CustomBME280", block_hot);
         ("TempUnit", VStr "C")].

Definition payload_ok : value :=
  VDict [("Time", VStr "2026-01-01T00:00:21");
         ("CustomBME280", block_ok);
         ("TempUnit", VStr "C")].

(** A runtime for the examples: [json.loads] and the float conversions are
    tabulated on the texts and numbers that occur in them, and a set is
    listed without repeats, each string where it occurs last. *)
Definition runtime : Runtime :=
  {| float_of_str := fun s =>
       if String.eqb s "22.5" then Some 22.5%float
       else if String.eqb s "45.0" then Some 45.0%float
       else None;
     str_float := fun f =>
       if PrimFloat.eqb f 999.0 then "999.0"
       else if PrimFloat.eqb f 10.0 then "10.0"
       else if PrimFloat.eqb f 85.0 then "85.0"
       else if PrimFloat.eqb f 100.0 then "100.0"
       else if PrimFloat.eqb f 700.0 then "700.0"
       else if PrimFloat.eqb f 1150.0 then "1150.0"
       else if PrimFloat.eqb f 22.5 then "22.5"
       else if PrimFloat.eqb f 45.0 then "45.0"
       else if PrimFloat.eqb f 1013.0 then "1013.0"
       else "0.0";
     str_container := fun _ => "{...}";
     set_to_list := nodup string_dec;
     json_loads := fun s =>
       if String.eqb s raw_hot then Returns payload_hot
       else if String.eqb s raw_ok then Returns payload_ok
       else Raises (Exn JSONDecodeError "Expecting value: line 1 column 1 (char 0)") |}.

(** Two samples with Temperature 999, then two plausible ones, ten seconds
    apart within the default 45 s budget. *)
Definition session_third_valid : MqttSession :=
  {| connect_error := None;
     events := [ ConnAck 0 "Success";
                 Poll 1.0 (Message raw_hot);
                 Poll 11.0 (Message raw_hot);
                 Poll 21.0 (Message raw_ok);
                 Poll 31.0 (Message raw_ok) ]%float;
     clock_at_return := 21.5%float |}.

(** Only rejected samples until the budget is over. *)
Definition session_never_valid : MqttSession :=
  {| connect_error := None;
     events := [ ConnAck 0 "Success";
                 Poll 1.0 (Message raw_hot);
                 Poll 11.0 (Message "not json");
                 Poll 21.0 (Message raw_hot);
                 Poll 31.0 QueueEmpty;
                 Poll 45.5 QueueEmpty ]%float;
     clock_at_return := 45.5%float |}.

(** A device that answers 404 with a JSON body, and one that answers the
    identity query with an empty [Status] object. *)
Definition reply_404 : http_reply := HttpReplies 404 (Returns (VDict [])).

Definition reply_status_without_topic : http_reply :=
  HttpReplies 200 (Returns (VDict [("Status", VDict [])])).

End Sample.

(* ================================================================== *)
(** ** Further notions and scenarios *)
(* ================================================================== *)

(** The integers among the three quantities fit the range of a float. *)
Definition ints_convert (block : list (string * value)) : Prop :=
  forall key z, In key (map fst limits) -> dict_get key block = Some (VInt z) ->
                exists f, float_of_int z = Returns f.

(** A port answers the status probe: the read returns and the identity
    marker is in what was read. *)
Definition answers_status (w : World) (pt : string) : Prop :=
  exists answer, serial_probe w pt = Returns answer /\
                 str_contains "Status" answer = true.

Module Scenario.

(** The sample configuration with another sensor name. *)
Definition args_for_sensor (name : string) : Args :=
  {| cidr := None;
     target_ip := Some "192.168.1.50";
     provision_via := "none";
     mqtt_host := "192.168.1.100";
     mqtt_port := 1883;
     mqtt_user := Some "tasmota";
     mqtt_password := Some "s3cret";
     wifi_ssid := Some "lab";
     wifi_password := Some "hunter2";
     sensor_name := name;
     teleperiod := 10;
     mqtt_wait_sec := 45.0%float;
     report_file := None;
     log := false |}.

(** The sample configuration with a network range instead of an address. *)
Definition args_for_range (via : string) : Args :=
  {| cidr := Some "192.168.1.0/30";
     target_ip := None;
     provision_via := via;
     mqtt_host := "192.168.1.100";
     mqtt_port := 1883;
     mqtt_user := Some "tasmota";
     mqtt_password := Some "s3cret";
     wifi_ssid := Some "lab";
     wifi_password := Some "hunter2";
     sensor_name := "CustomBME280";
     teleperiod := 10;
     mqtt_wait_sec := 45.0%float;
     report_file := None;
     log := false |}.

(** A broker that refuses the connection while a message is on its way. *)
Definition session_refused : MqttSession :=
  {| connect_error := Some "[Errno 111] Connection refused";
     events := [Poll 1.0%float (Message Sample.raw_ok)];
     clock_at_return := 0.1%float |}.

(** A device that answers the identity query in full. *)
Definition reply_identity : http_reply :=
  HttpReplies 200
    (Returns (VDict [("Status",
                      VDict [("Topic", VStr "tasmota_1A2B3C");
                             ("DeviceName", VStr "Kitchen")])])).

(** A payload whose Temperature is an integer beyond the float range. *)
Definition payload_huge : value :=
  VDict [("CustomBME280",
          VDict [("Temperature", VInt (10 ^ 400));
                 ("Humidity", VFloat 45.0);
                 ("Pressure", VFloat 1013.0)])].

End Scenario.

(* ================================================================== *)
(** * Properties *)
(* ================================================================== *)

(** ** The sensor validator *)

Section ValidatorFacts.
Context {rt : Runtime}.

Lemma app_single_not_nil (A : Type) (l : list A) (x : A) : l ++ [x] <> [].
Proof. destruct l; discriminate. Qed.

(** One pass of the loop leaves the list alone exactly when the quantity is
    fine; otherwise it adds one message or raises. *)
Lemma check_field_cases block errs key lo hi :
  (quantity_ok block key lo hi /\
   check_field (VDict block) errs (key, (lo, hi)) = Returns errs) \/
  (~ quantity_ok block key lo hi /\
   ((exists m, check_field (VDict block) errs (key, (lo, hi)) = Returns (errs ++ [m])) \/
    (exists e, check_field (VDict block) errs (key, (lo, hi)) = Raises e))).
Proof.
  unfold check_field, quantity_ok; cbn [get bind].
  destruct (dict_get key block) as [v|] eqn:Hv.
  2:{ right; split; [intros (v & f & H & _); discriminate | left; eauto]. }
  destruct (to_float v) as [f|e] eqn:Hf.
  - destruct (within lo hi f) eqn:Hw.
    + left; split; [exists v, f; auto|].
      destruct v; cbn in Hf; try discriminate; cbn [negb]; reflexivity.
    + right; split.
      * intros (v' & f' & H1 & H2 & H3). congruence.
      * destruct v; cbn in Hf; try discriminate; cbn [negb]; left; eauto.
  - right; split.
    + intros (v' & f' & H1 & H2 & H3). congruence.
    + destruct v; try (left; eauto; fail);
        destruct (exn_kind e); eauto.
Qed.

Lemma check_field_grows s errs lim errs' :
  check_field s errs lim = Returns errs' ->
  errs' = errs \/ exists m, errs' = errs ++ [m].
Proof.
  destruct lim as [key [lo hi]]. destruct s; try discriminate.
  destruct (check_field_cases d errs key lo hi) as [[_ H]|[_ [[m H]|[e H]]]];
    rewrite H; intros [=]; subst; eauto.
Qed.

Lemma check_fields_keeps_errors lims s errs errs' :
  errs <> [] -> check_fields lims s errs = Returns errs' -> errs' <> [].
Proof.
  revert errs. induction lims as [|lim rest IH]; intros errs Hne; cbn.
  - intros [=]; subst; assumption.
  - destruct (check_field s errs lim) as [e1|] eqn:H1; cbn; [|discriminate].
    apply IH. apply check_field_grows in H1 as [->|[m ->]];
      [assumption | apply app_single_not_nil].
Qed.

Lemma suspicious_zero_grows s errs errs' :
  suspicious_zero s errs = Returns errs' ->
  errs' = errs \/ exists m, errs' = errs ++ [m].
Proof.
  unfold suspicious_zero. destruct s; try discriminate. cbn.
  repeat match goal with |- context [if ?b then _ else _] => destruct b end;
    intros [=]; subst; eauto.
Qed.

Lemma suspicious_zero_empty block :
  suspicious_zero (VDict block) [] = Returns [] <-> ~ both_zero block.
Proof.
  unfold suspicious_zero, both_zero; cbn.
  destruct (dict_get "Temperature" block) as [t|] eqn:Ht;
    [destruct (eq_zero t) eqn:Zt|].
  - destruct (dict_get "Humidity" block) as [h|] eqn:Hh;
      [destruct (eq_zero h) eqn:Zh|]; cbn.
    + split; [discriminate | intros H; exfalso; apply H; eauto 6].
    + split; [| reflexivity]. intros _ (t' & h' & E1 & E2 & Z1 & Z2). congruence.
    + split; [| reflexivity]. intros _ (t' & h' & E1 & E2 & Z1 & Z2). congruence.
  - split; [| reflexivity]. intros _ (t' & h' & E1 & E2 & Z1 & Z2). congruence.
  - cbn. split; [| reflexivity]. intros _ (t' & h' & E1 & E2 & Z1 & Z2). congruence.
Qed.

Lemma check_fields_empty_iff lims block :
  check_fields lims (VDict block) [] = Returns [] <->
  Forall (fun lim => quantity_ok block (fst lim) (fst (snd lim)) (snd (snd lim))) lims.
Proof.
  induction lims as [|[key [lo hi]] rest IH]; cbn [check_fields].
  - split; [constructor | reflexivity].
  - destruct (check_field_cases block [] key lo hi)
      as [[Hok E]|[Hno [[m E]|[e E]]]]; rewrite E; cbn [bind].
    + rewrite IH. split; [constructor; assumption | now inversion 1].
    + split.
      * intros H. apply check_fields_keeps_errors in H; [tauto | discriminate].
      * inversion 1; subst; contradiction.
    + split; [discriminate | inversion 1; subst; contradiction].
Qed.

Lemma quantities_ok_limits block :
  Forall (fun lim => quantity_ok block (fst lim) (fst (snd lim)) (snd (snd lim))) limits <->
  quantity_ok block "Temperature" 10.0 85.0 /\
  quantity_ok block "Humidity" 0.0 100.0 /\
  quantity_ok block "Pressure" 700.0 1150.0.
Proof.
  unfold limits. split.
  - intros H. inversion H as [|? ? Ht H1]; subst.
    inversion H1 as [|? ? Hh H2]; subst.
    inversion H2 as [|? ? Hp _]; subst. auto.
  - intros (Ht & Hh & Hp). repeat constructor; assumption.
Qed.

(** C4. The validator returns the empty list if and only if the named block
    is present and Temperature, Humidity and Pressure are all present,
    numeric and within their inclusive bounds (10..85, 0..100, 700..1150),
    and Temperature and Humidity are not both exactly zero; at the
    Temperature bounds, 10.0 and 85.0 pass while 9.999 and 85.001 do not. *)
Theorem validate_sensor_data_empty_iff :
  (forall payload name,
      validate_sensor_data payload name = Returns [] <-> valid_sample payload name) /\
  (forall name,
      validate_sensor_data (sample name 10.0 45.0 1013.0) name = Returns [] /\
      validate_sensor_data (sample name 85.0 45.0 1013.0) name = Returns [] /\
      validate_sensor_data (sample name 9.999 45.0 1013.0) name <> Returns [] /\
      validate_sensor_data (sample name 85.001 45.0 1013.0) name <> Returns []).
Proof.
  split.
  - intros payload name. unfold validate_sensor_data, valid_sample. split.
    + destruct payload as [| | | | s | l | d]; cbn [contains bind]; try discriminate.
      * destruct (str_contains name s); discriminate.
      * destruct (existsb _ l); discriminate.
      * destruct (dict_get name d) as [blk|] eqn:Hblk; cbn [negb get bind];
          [| discriminate].
        rewrite Hblk.
        destruct blk as [| | | | | | block]; try discriminate.
        destruct (check_fields limits (VDict block) []) as [errs|] eqn:E;
          cbn [bind]; [| discriminate].
        intros H. exists d, block. split; [reflexivity|]. split; [exact Hblk|].
        assert (errs = []) as ->.
        { apply suspicious_zero_grows in H as [H|[m H]];
            [congruence | symmetry in H; apply app_single_not_nil in H; tauto]. }
        apply check_fields_empty_iff, quantities_ok_limits in E.
        apply suspicious_zero_empty in H. tauto.
    + intros (d & block & -> & Hblk & Ht & Hh & Hp & Hz).
      cbn [contains bind]. rewrite Hblk; cbn [negb get bind]. rewrite Hblk.
      assert (E : check_fields limits (VDict block) [] = Returns []).
      { apply check_fields_empty_iff, quantities_ok_limits; auto. }
      rewrite E; cbn [bind]. apply suspicious_zero_empty; assumption.
  - intros name. unfold validate_sensor_data, sample.
    cbn [contains get dict_get bind]. rewrite String.eqb_refl. cbn [negb].
    repeat split; try reflexivity; vm_compute; discriminate.
Qed.

End ValidatorFacts.

(** ** Provisioning *)

Section ProvisioningFacts.

Lemma send_cases ser c st :
  (exists r, reply ser (length (cmds st)) c = Responds r /\
             send ser c st =
               (None, {| cmds := cmds st ++ [c];
                         resps := dict_set c (VStr r) (resps st) |})) \/
  (exists e, (reply ser (length (cmds st)) c = WriteFails e \/
              reply ser (length (cmds st)) c = ReadFails e) /\
             send ser c st = (Some e, {| cmds := cmds st ++ [c]; resps := resps st |})).
Proof.
  unfold send. destruct (reply ser (length (cmds st)) c); eauto.
Qed.

Lemma send_all_app ser l1 l2 st :
  send_all ser (l1 ++ l2) st = (send_all ser l1 ;; send_all ser l2) st.
Proof.
  revert st. induction l1 as [|c l1 IH]; intros st; cbn [send_all app].
  - reflexivity.
  - unfold seq. destruct (send ser c st) as [[e|] st1].
    + reflexivity.
    + rewrite IH. reflexivity.
Qed.

(** The body of the serial strategy is the sequence of [send]s over
    [serial_commands]. *)
Lemma serial_body_send_all ser args st :
  serial_body ser args st = send_all ser (serial_commands args) st.
Proof.
  unfold serial_body, serial_commands.
  destruct (truthy_str (wifi_ssid args)), (truthy_str (wifi_password args)),
    (truthy_str (mqtt_user args)), (truthy_str (mqtt_password args));
    cbn [when app send_all]; unfold seq;
    repeat (match goal with
            | |- context [send ?s ?c ?x] => destruct (send s c x) as [[?|] ?]
            end; try reflexivity).
Qed.

Lemma dict_get_set (A : Type) k k' (v : A) d :
  dict_get k (dict_set k' v d) =
  if String.eqb k k' then Some v else dict_get k d.
Proof.
  induction d as [|[k0 v0] d IH]; cbn.
  - destruct (String.eqb k k'); reflexivity.
  - destruct (String.eqb_spec k' k0) as [->|Hne]; cbn.
    + destruct (String.eqb k k0); reflexivity.
    + destruct (String.eqb_spec k k0) as [->|Hne'].
      * destruct (String.eqb_spec k0 k'); [subst; contradiction | reflexivity].
      * exact IH.
Qed.

Lemma dict_has_set (A : Type) k k' (v : A) d :
  dict_get k (dict_set k' v d) <> None <-> k = k' \/ dict_get k d <> None.
Proof.
  rewrite dict_get_set. destruct (String.eqb_spec k k') as [->|Hne].
  - split; [auto | discriminate].
  - split; [auto | intros [H|H]; [contradiction | exact H]].
Qed.

(** A line that answers the first [k] commands and fails on the next one:
    the failing command is already in [cmds], its response is not in
    [resps]. *)
Lemma send_all_fails_at ser cs : forall k st c e,
  nth_error cs k = Some c ->
  (forall i ci, i < k -> nth_error cs i = Some ci ->
                exists r, reply ser (length (cmds st) + i) ci = Responds r) ->
  (reply ser (length (cmds st) + k) c = WriteFails e \/
   reply ser (length (cmds st) + k) c = ReadFails e) ->
  exists rs,
    send_all ser cs st = (Some e, {| cmds := cmds st ++ firstn (S k) cs; resps := rs |}) /\
    forall ci, dict_get ci rs <> None <->
               dict_get ci (resps st) <> None \/ In ci (firstn k cs).
Proof.
  induction cs as [|c0 cs IH]; intros k st c e Hk Hbefore Hfail.
  - destruct k; discriminate.
  - destruct k as [|k]; cbn [send_all nth_error firstn] in *.
    + injection Hk as ->. rewrite Nat.add_0_r in Hfail.
      exists (resps st). split.
      * unfold seq, send. destruct Hfail as [-> | ->]; reflexivity.
      * intros ci. cbn. tauto.
    + destruct (Hbefore 0 c0) as [r Hr]; [lia | reflexivity |].
      rewrite Nat.add_0_r in Hr.
      destruct (IH k {| cmds := cmds st ++ [c0];
                        resps := dict_set c0 (VStr r) (resps st) |} c e)
        as (rs & Hrun & Hkeys); cbn [cmds resps].
      * exact Hk.
      * intros i ci Hi Hci. rewrite length_app; cbn [length].
        replace (length (cmds st) + 1 + i) with (length (cmds st) + S i) by lia.
        apply Hbefore; [lia | exact Hci].
      * rewrite length_app; cbn [length].
        replace (length (cmds st) + 1 + k) with (length (cmds st) + S k) by lia.
        exact Hfail.
      * exists rs. split.
        -- unfold seq at 1, send at 1. rewrite Hr. cbn [cmds resps]. rewrite Hrun.
           cbn [cmds]. rewrite <- app_assoc. reflexivity.
        -- intros ci. rewrite Hkeys. cbn [resps In]. rewrite dict_has_set.
           intuition congruence.
Qed.

(** A line that answers everything: all the commands are recorded. *)
Lemma send_all_answers ser cs : forall st,
  (forall n c, exists r, reply ser n c = Responds r) ->
  exists rs,
    send_all ser cs st = (None, {| cmds := cmds st ++ cs; resps := rs |}) /\
    forall ci, dict_get ci rs <> None <->
               dict_get ci (resps st) <> None \/ In ci cs.
Proof.
  induction cs as [|c0 cs IH]; intros st Hall; cbn [send_all].
  - exists (resps st). rewrite app_nil_r. destruct st; cbn. split; [reflexivity | tauto].
  - destruct (Hall (length (cmds st)) c0) as [r Hr].
    destruct (IH {| cmds := cmds st ++ [c0];
                    resps := dict_set c0 (VStr r) (resps st) |} Hall)
      as (rs & Hrun & Hkeys).
    exists rs. split.
    + unfold seq at 1, send at 1. rewrite Hr. cbn [cmds resps]. rewrite Hrun.
      cbn [cmds]. rewrite <- app_assoc. reflexivity.
    + intros ci. rewrite Hkeys. cbn [resps In]. rewrite dict_has_set.
      intuition congruence.
Qed.

(** C1 (as the code has it). When the serial port opens and the write of
    the command at position [k] fails after the earlier ones were answered,
    the outcome has success false and the error text; [commands_sent] holds
    the commands up to and including the one whose write failed (three for
    a failure on the third), and [responses] has an entry for exactly the
    commands before it (two). *)
Theorem serial_write_failure_outcome w port args k c e :
  setup_error (serial w port) = None ->
  nth_error (serial_commands args) k = Some c ->
  (forall i ci, i < k -> nth_error (serial_commands args) i = Some ci ->
                exists r, reply (serial w port) i ci = Responds r) ->
  reply (serial w port) k c = WriteFails e ->
  let res := provision_via_serial w port args in
  ProvisionResult.ok res = false /\
  ProvisionResult.error res = Some e /\
  ProvisionResult.commands_sent res = firstn (S k) (serial_commands args) /\
  exists rs, ProvisionResult.responses res = VDict rs /\
             forall ci, dict_get ci rs <> None <->
                        In ci (firstn k (serial_commands args)).
Proof.
  intros Hopen Hk Hbefore Hfail res. subst res. unfold provision_via_serial.
  rewrite Hopen, serial_body_send_all.
  destruct (send_all_fails_at (serial w port) (serial_commands args) k
              {| cmds := []; resps := [] |} c e Hk) as (rs & Hrun & Hkeys);
    cbn [cmds resps length Nat.add]; auto.
  rewrite Hrun; cbn. repeat split; try reflexivity.
  exists rs. split; [reflexivity|]. intros ci. rewrite Hkeys. cbn.
  intuition congruence.
Qed.

(** The case of the design document: the third write fails. *)
Lemma serial_write_failure_outcome_witness :
  let res := provision_via_serial
               (Sample.world Sample.reply_404 Sample.line_third_write_fails)
               "/dev/ttyUSB0" (Sample.args "serial") in
  ProvisionResult.ok res = false /\
  ProvisionResult.error res = Some "Write timeout" /\
  ProvisionResult.commands_sent res =
    firstn 3 (serial_commands (Sample.args "serial")) /\
  exists rs, ProvisionResult.responses res = VDict rs /\
             forall ci, dict_get ci rs <> None <->
                        In ci (firstn 2 (serial_commands (Sample.args "serial"))).
Proof.
  apply (serial_write_failure_outcome
           (Sample.world Sample.reply_404 Sample.line_third_write_fails)
           "/dev/ttyUSB0" (Sample.args "serial") 2 "MqttHost 192.168.1.100"
           "Write timeout").
  - reflexivity.
  - reflexivity.
  - intros i ci Hi _. destruct i as [|[|i]]; [exists ""; reflexivity .. | lia].
  - reflexivity.
Defined.

(** C1, as the design document states it, does not hold: with a write failure forced on the third
    command the outcome lists three commands, not the first two. *)
Lemma serial_third_write_failure_lists_three :
  let res := provision_via_serial
               (Sample.world Sample.reply_404 Sample.line_third_write_fails)
               "/dev/ttyUSB0" (Sample.args "serial") in
  ProvisionResult.ok res = false /\
  ProvisionResult.commands_sent res =
    ["SSID1 lab"; "Password1 hunter2"; "MqttHost 192.168.1.100"] /\
  ProvisionResult.commands_sent res <> ["SSID1 lab"; "Password1 hunter2"].
Proof.
  cbv zeta. split; [reflexivity|]. split; [reflexivity|]. vm_compute. discriminate.
Qed.

(** The two command lists differ only in where the telemetry period goes. *)
Lemma backlog_and_serial_commands args :
  exists front creds,
    http_backlog args =
      front ++ ("TelePeriod " +:+ str_int (teleperiod args)) :: creds ++ ["Restart 1"] /\
    serial_commands args =
      front ++ creds ++ ["TelePeriod " +:+ str_int (teleperiod args); "Restart 1"] /\
    (truthy_str (mqtt_user args) = false ->
     truthy_str (mqtt_password args) = false -> creds = []).
Proof.
  exists ((if truthy_str (wifi_ssid args) then
             ["SSID1 " +:+ str_opt (wifi_ssid args)] ++
             (if truthy_str (wifi_password args)
              then ["Password1 " +:+ str_opt (wifi_password args)] else [])
           else []) ++
          ["MqttHost " +:+ mqtt_host args; "MqttPort " +:+ str_int (mqtt_port args)]),
         ((if truthy_str (mqtt_user args)
           then ["MqttUser " +:+ str_opt (mqtt_user args)] else []) ++
          (if truthy_str (mqtt_password args)
           then ["MqttPassword " +:+ str_opt (mqtt_password args)] else [])).
  unfold http_backlog, serial_commands. repeat split.
  - rewrite <- !app_assoc. reflexivity.
  - rewrite <- !app_assoc. reflexivity.
  - intros -> ->. reflexivity.
Qed.

(** C2 (as the code has it). On a serial line that answers every command,
    the commands the Serial strategy sends are the sub-commands the HTTP
    strategy joins into its [Backlog] command, each once, but not in the
    same order: the telemetry period precedes the broker user and password
    in the HTTP batch and follows them on the serial line.  The two
    sequences coincide when neither broker credential is given. *)
Theorem serial_commands_permute_http_backlog w port dev args :
  setup_error (serial w port) = None ->
  (forall n c, exists r, reply (serial w port) n c = Responds r) ->
  let sent := ProvisionResult.commands_sent (provision_via_serial w port args) in
  ProvisionResult.commands_sent (provision_via_http w dev args) =
    ["Backlog " +:+ String.concat "; " (http_backlog args)] /\
  Permutation (http_backlog args) sent /\
  (exists front creds,
      http_backlog args =
        front ++ ("TelePeriod " +:+ str_int (teleperiod args)) :: creds ++ ["Restart 1"] /\
      sent =
        front ++ creds ++ ["TelePeriod " +:+ str_int (teleperiod args); "Restart 1"]) /\
  (truthy_str (mqtt_user args) = false ->
   truthy_str (mqtt_password args) = false -> sent = http_backlog args).
Proof.
  intros Hopen Hall sent.
  assert (Hsent : sent = serial_commands args).
  { subst sent. unfold provision_via_serial.
    rewrite Hopen, serial_body_send_all.
    destruct (send_all_answers (serial w port) (serial_commands args)
                {| cmds := []; resps := [] |} Hall) as (rs & Hrun & _).
    rewrite Hrun. reflexivity. }
  rewrite Hsent.
  destruct (backlog_and_serial_commands args) as (front & creds & Hh & Hs & Hnone).
  split.
  - unfold provision_via_http.
    destruct (http w _) as [e | status [j | e]]; reflexivity.
  - split; [| split].
    + rewrite Hh, Hs. apply Permutation_app_head.
      change (Permutation
                (("TelePeriod " +:+ str_int (teleperiod args)) :: creds ++ ["Restart 1"])
                (creds ++ ("TelePeriod " +:+ str_int (teleperiod args)) :: ["Restart 1"])).
      apply Permutation_middle.
    + exists front, creds. auto.
    + intros Hu Hp. rewrite Hh, Hs, (Hnone Hu Hp). reflexivity.
Qed.

(** A full configuration on a line that answers every command. *)
Lemma serial_commands_permute_http_backlog_witness :
  let sent := ProvisionResult.commands_sent
                (provision_via_serial (Sample.world Sample.reply_404 Sample.line_ok)
                   "/dev/ttyUSB0" (Sample.args "serial")) in
  Permutation (http_backlog (Sample.args "serial")) sent.
Proof.
  apply (serial_commands_permute_http_backlog
           (Sample.world Sample.reply_404 Sample.line_ok) "/dev/ttyUSB0"
           Sample.device (Sample.args "serial")).
  - reflexivity.
  - intros n c. exists "". reflexivity.
Defined.

(** C2, as the design document states it, does not hold: with a broker user and password the
    serial line gets [TelePeriod] after them, the HTTP batch before. *)
Lemma serial_order_differs_from_http_backlog :
  ProvisionResult.commands_sent
    (provision_via_serial (Sample.world Sample.reply_404 Sample.line_ok)
       "/dev/ttyUSB0" (Sample.args "serial"))
  = ["SSID1 lab"; "Password1 hunter2"; "MqttHost 192.168.1.100"; "MqttPort 1883";
     "MqttUser tasmota"; "MqttPassword s3cret"; "TelePeriod 10"; "Restart 1"] /\
  http_backlog (Sample.args "serial")
  = ["SSID1 lab"; "Password1 hunter2"; "MqttHost 192.168.1.100"; "MqttPort 1883";
     "TelePeriod 10"; "MqttUser tasmota"; "MqttPassword s3cret"; "Restart 1"] /\
  ProvisionResult.commands_sent
    (provision_via_serial (Sample.world Sample.reply_404 Sample.line_ok)
       "/dev/ttyUSB0" (Sample.args "serial"))
  <> http_backlog (Sample.args "serial").
Proof.
  split; [reflexivity|]. split; [reflexivity|]. vm_compute. discriminate.
Qed.

(** C3 (as the code has it). The HTTP strategy records the one composite
    command whatever happens.  The outcome has success false, with the
    error text, exactly when the request raises or the body of the response
    is not JSON; the status code of a response is not looked at, so a
    non-success response with a JSON body gives success true. *)
Theorem provision_via_http_outcome w dev args :
  let res := provision_via_http w dev args in
  ProvisionResult.commands_sent res = [full_cmd args] /\
  ProvisionResult.method res = "http" /\
  match http w (Request ("http://" +:+ DeviceInfo.ip dev +:+ ":"
                           +:+ str_int (DeviceInfo.port dev) +:+ "/cm")
                        [("cmnd", full_cmd args)]) with
  | HttpFails e =>
      ProvisionResult.ok res = false /\ ProvisionResult.error res = Some e
  | HttpReplies _ (Raises e) =>
      ProvisionResult.ok res = false /\
      ProvisionResult.error res = Some (exn_text e)
  | HttpReplies _ (Returns j) =>
      ProvisionResult.ok res = true /\ ProvisionResult.error res = None /\
      ProvisionResult.responses res = j
  end.
Proof.
  cbv zeta. unfold provision_via_http.
  destruct (http w _) as [e | status [j | e]]; cbn; auto.
Qed.

(** C3, as the design document states it, does not hold: a 404 response with a JSON body is
    reported as a success. *)
Lemma http_404_reported_as_success :
  http (Sample.world Sample.reply_404 Sample.line_ok)
       (Request "http://192.168.1.50:80/cm" [("cmnd", full_cmd (Sample.args "http"))])
  = HttpReplies 404 (Returns (VDict [])) /\
  ProvisionResult.ok
    (provision_via_http (Sample.world Sample.reply_404 Sample.line_ok)
       Sample.device (Sample.args "http")) = true.
Proof. split; reflexivity. Qed.

End ProvisioningFacts.

(** ** Discovery *)

Section DiscoveryFacts.

Lemma probe_identity_some ip port data d :
  probe_identity ip port data = Returns (Some d) <->
  exists body st, data = VDict body /\
                  dict_get "Status" body = Some (VDict st) /\
                  d = identity_record ip port st.
Proof.
  unfold probe_identity, identity_record. split.
  - destruct data as [| | | | s | l | body]; cbn [contains bind]; try discriminate.
    + destruct (str_contains "Status" s); cbn; discriminate.
    + destruct (existsb _ l); cbn; discriminate.
    + destruct (dict_get "Status" body) as [st|] eqn:Hst; cbn [getitem bind];
        [| discriminate].
      rewrite Hst; cbn [bind].
      destruct st as [| | | | | | st]; try discriminate.
      cbn [get bind]. intros H. exists body, st. split; [reflexivity|].
      split; [exact Hst|]. revert H.
      destruct (truthy _); cbn [get bind]; intros [= <-]; reflexivity.
  - intros (body & st & -> & Hst & ->). cbn [contains bind]. rewrite Hst.
    cbn [getitem bind]. rewrite Hst. cbn [get bind].
    destruct (truthy _); reflexivity.
Qed.

(** A probe yields a record exactly for a 200 response whose JSON body is
    an object with an object under [Status]. *)
Lemma probe_ip_some session ip port d :
  _probe_ip session ip port = Some d <->
  exists body st,
    session (Request ("http://" +:+ ip +:+ ":" +:+ str_int port +:+ "/cm?cmnd=Status") [])
      = HttpReplies 200 (Returns (VDict body)) /\
    dict_get "Status" body = Some (VDict st) /\
    d = identity_record ip port st.
Proof.
  unfold _probe_ip. split.
  - destruct (session _) as [e | status [data | e]]; try discriminate.
    destruct (Z.eqb_spec status 200) as [-> | Hne]; [| discriminate].
    destruct (probe_identity ip port data) as [r|] eqn:Hr; [| discriminate].
    intros ->. apply probe_identity_some in Hr as (body & st & -> & Hst & ->).
    exists body, st. auto.
  - intros (body & st & -> & Hst & ->). cbn [Z.eqb Pos.eqb].
    assert (H : probe_identity ip port (VDict body)
                = Returns (Some (identity_record ip port st))).
    { apply probe_identity_some. exists body, st. auto. }
    rewrite H. reflexivity.
Qed.

Lemma in_somes (A : Type) (l : list (option A)) (a : A) :
  In a (somes l) <-> In (Some a) l.
Proof.
  induction l as [|[x|] l IH]; cbn; [tauto | | ].
  - rewrite IH. split; intros [H|H]; auto; [left; congruence | injection H; auto].
  - rewrite IH. split; [auto | intros [H|H]; [discriminate | exact H]].
Qed.

(** C6 (as the code has it). When the address library yields the host
    addresses [ips] for the range, the sweep runs one probe per address and
    completes; it returns a record exactly for the addresses that answered
    200 with a JSON object holding an object under [Status].  The [Topic]
    entry is optional: without it the record carries the topic [unknown].
    Any other outcome of a probe (the request raises, another status, a body
    that is not JSON, no [Status] object) yields no record. *)
Theorem scan_network_sweep w cidr port concurrency ips :
  network_hosts w cidr = Returns ips ->
  exists results,
    results = map (fun ip => _probe_ip (http w) ip port) ips /\
    length results = length ips /\
    scan_network w cidr port concurrency = Returns (somes results) /\
    (forall d, In d (somes results) <->
               exists ip, In ip ips /\ _probe_ip (http w) ip port = Some d) /\
    (forall ip d,
        _probe_ip (http w) ip port = Some d <->
        exists body st,
          http w (Request ("http://" +:+ ip +:+ ":" +:+ str_int port
                             +:+ "/cm?cmnd=Status") [])
            = HttpReplies 200 (Returns (VDict body)) /\
          dict_get "Status" body = Some (VDict st) /\
          d = identity_record ip port st).
Proof.
  intros Hhosts. eexists. split; [reflexivity|].
  split; [apply length_map|].
  split; [unfold scan_network; rewrite Hhosts; reflexivity|].
  split.
  - intros d. rewrite in_somes, in_map_iff. split.
    + intros (ip & H & Hin). eauto.
    + intros (ip & Hin & H). eauto.
  - intros ip d. apply probe_ip_some.
Qed.

(** A sweep over two host addresses. *)
Lemma scan_network_sweep_witness :
  exists results,
    results = map (fun ip => _probe_ip
                     (http (Sample.world Sample.reply_status_without_topic Sample.line_ok))
                     ip 80) ["192.168.1.1"; "192.168.1.2"] /\
    length results = 2 /\
    scan_network (Sample.world Sample.reply_status_without_topic Sample.line_ok)
      "192.168.1.0/30" 80 200 = Returns (somes results).
Proof.
  destruct (scan_network_sweep
              (Sample.world Sample.reply_status_without_topic Sample.line_ok)
              "192.168.1.0/30" 80 200 ["192.168.1.1"; "192.168.1.2"] eq_refl)
    as (results & H1 & H2 & H3 & _).
  exists results. auto.
Defined.

(** C6, as the design document states it, does not hold: an address that answers 200 with a
    [Status] object that has no [Topic] still yields a record. *)
Lemma probe_without_topic_yields_record :
  http (Sample.world Sample.reply_status_without_topic Sample.line_ok)
       (Request "http://192.168.1.1:80/cm?cmnd=Status" [])
  = HttpReplies 200 (Returns (VDict [("Status", VDict [])])) /\
  _probe_ip (http (Sample.world Sample.reply_status_without_topic Sample.line_ok))
    "192.168.1.1" 80
  = Some (DeviceInfo.Make "192.168.1.1" 80 (VStr "unknown") (VStr "Tasmota")
            "http-probe").
Proof. split; reflexivity. Qed.

Lemma probe_ip_tag session ip port d :
  _probe_ip session ip port = Some d -> DeviceInfo.discovered_by d = "http-probe".
Proof.
  intros H. apply probe_ip_some in H as (body & st & _ & _ & ->). reflexivity.
Qed.

Lemma scan_network_tags w cidr port concurrency devices :
  scan_network w cidr port concurrency = Returns devices ->
  Forall (fun d => DeviceInfo.discovered_by d = "http-probe") devices.
Proof.
  unfold scan_network. destruct (network_hosts w cidr) as [ips|]; [| discriminate].
  cbn [bind]. intros [= <-]. apply Forall_forall. intros d Hd.
  apply in_somes, in_map_iff in Hd as (ip & H & _).
  eapply probe_ip_tag; eauto.
Qed.

End DiscoveryFacts.

(** ** Telemetry validation *)

Section TelemetryFacts.
Context {rt : Runtime}.

(** When the loop is left without an accepted sample, [errors] holds what
    the run accumulated. *)
Lemma consume_exhausted args evs : forall errs errs',
  consume args evs errs = Exhausted errs' ->
  errs' = errs ++ accumulated args evs.
Proof.
  induction evs as [|ev rest IH]; intros errs errs'; cbn [consume accumulated].
  - intros [= <-]. symmetry; apply app_nil_r.
  - destruct ev as [rc rc_text | elapsed q].
    + intros H. apply IH in H. rewrite H.
      destruct (Z.eqb rc 0); [reflexivity | rewrite <- app_assoc; reflexivity].
    + destruct (PrimFloat.ltb elapsed (mqtt_wait_sec args)).
      2:{ intros [= <-]. symmetry; apply app_nil_r. }
      destruct q as [|raw]; [apply IH|].
      destruct (json_loads raw) as [data|e].
      * destruct (validate_sensor_data data (sensor_name args)) as [[|v vs]|e].
        -- discriminate.
        -- intros H. apply IH in H. rewrite H, <- app_assoc. reflexivity.
        -- intros [= <-]. reflexivity.
      * destruct (exn_kind e);
          try (intros [= <-]; reflexivity).
        intros H. apply IH in H. rewrite H, <- app_assoc. reflexivity.
Qed.

(** Events that are passed over leave the loop running. *)
Lemma consume_passed_over args pre : forall rest errs,
  Forall (passed_over args) pre ->
  consume args (pre ++ rest) errs = consume args rest (errs ++ accumulated args pre).
Proof.
  induction pre as [|ev pre IH]; intros rest errs Hpre; cbn [app consume accumulated].
  - rewrite app_nil_r. reflexivity.
  - inversion Hpre as [|? ? Hev Hpre']; subst.
    destruct ev as [rc rc_text | elapsed q]; cbn [passed_over] in Hev.
    + rewrite IH by assumption.
      destruct (Z.eqb rc 0); [reflexivity | rewrite <- app_assoc; reflexivity].
    + destruct Hev as [-> Hq].
      destruct q as [|raw]; [apply IH; assumption|].
      destruct Hq as [(e & -> & ->) | (data & v_errs & -> & -> & Hne)].
      * rewrite IH by assumption. rewrite <- app_assoc. reflexivity.
      * destruct v_errs as [|v vs]; [contradiction|].
        rewrite IH by assumption. rewrite <- app_assoc. reflexivity.
Qed.

(** C5 (as the code has it). When the broker connection succeeds and the
    message stream starts with events the loop passes over (rejected
    samples, malformed JSON, empty polls) and then, still within the
    budget, delivers a sample the validator accepts, the result has success
    true, received_messages 1 and an empty error list, and first_payload is
    the whole parsed payload of that message (the object that holds the
    sensor block, not the sensor block).  Whatever follows that message has
    no influence on the result. *)
Theorem first_valid_sample_wins session args topic pre elapsed raw data post :
  connect_error session = None ->
  events session = pre ++ Poll elapsed (Message raw) :: post ->
  Forall (passed_over args) pre ->
  PrimFloat.ltb elapsed (mqtt_wait_sec args) = true ->
  json_loads raw = Returns data ->
  validate_sensor_data data (sensor_name args) = Returns [] ->
  validate_mqtt_sensor session args topic =
    MqttValidationResult.Make true 1 ("tele/" +:+ str topic +:+ "/SENSOR") []
      (Some data) (clock_at_return session).
Proof.
  intros Hconn Hev Hpre Hin Hjson Hvalid. unfold validate_mqtt_sensor.
  rewrite Hconn, Hev, consume_passed_over by assumption.
  cbn [consume]. rewrite Hin, Hjson, Hvalid. reflexivity.
Qed.

(** C8. Every result of the telemetry validator has success true if and
    only if its accepted-message count is 1, and a result with success
    false has a non-empty error list. *)
Theorem validation_result_invariant session args topic :
  let r := validate_mqtt_sensor session args topic in
  (MqttValidationResult.ok r = true <-> MqttValidationResult.received_messages r = 1%Z) /\
  (MqttValidationResult.ok r = false -> MqttValidationResult.errors r <> []).
Proof.
  cbv zeta. unfold validate_mqtt_sensor, no_telemetry.
  destruct (connect_error session) as [e|].
  - cbn. split; [split; discriminate|]. intros _.
    destruct (set_to_list _); discriminate.
  - destruct (consume args (events session) []) as [data|errs]; cbn.
    + split; [tauto | discriminate].
    + split; [split; discriminate|]. intros _.
      destruct (set_to_list errs); discriminate.
Qed.

(** C9 (as the code has it). A run that accepts a sample returns an empty
    error list, whatever was rejected before.  A run that accepts none
    returns the errors it accumulated (validation errors of the rejected
    samples, and also malformed-JSON, connection and library errors), each
    once and in no particular order, or the single synthesized error when
    there were none. *)
Theorem errors_of_a_run (Hset : set_semantics rt) session args topic :
  let r := validate_mqtt_sensor session args topic in
  (MqttValidationResult.ok r = true -> MqttValidationResult.errors r = []) /\
  (MqttValidationResult.ok r = false ->
   NoDup (MqttValidationResult.errors r) /\
   (run_errors args session <> [] ->
    forall x, In x (MqttValidationResult.errors r) <-> In x (run_errors args session)) /\
   (run_errors args session = [] ->
    MqttValidationResult.errors r = ["No valid telemetry received"])).
Proof.
  assert (Hfail : forall sub errs elapsed,
             let r := no_telemetry sub errs elapsed in
             NoDup (MqttValidationResult.errors r) /\
             (errs <> [] ->
              forall x, In x (MqttValidationResult.errors r) <-> In x errs) /\
             (errs = [] ->
              MqttValidationResult.errors r = ["No valid telemetry received"])).
  { intros sub errs elapsed. cbv zeta. unfold no_telemetry; cbn.
    destruct (Hset errs) as [Hnd Hin].
    destruct (set_to_list errs) as [|x xs] eqn:E.
    - split; [repeat constructor; intros []|]. split; [| reflexivity].
      intros Hne. destruct errs as [|y ys]; [contradiction|].
      exfalso. apply (proj2 (Hin y)). left; reflexivity.
    - split; [exact Hnd|]. split; [intros _; exact Hin|].
      intros ->. exfalso. apply (proj1 (Hin x)). left; reflexivity. }
  cbv zeta. unfold validate_mqtt_sensor, run_errors.
  destruct (connect_error session) as [e|].
  - split; [discriminate|]. intros _. apply Hfail.
  - destruct (consume args (events session) []) as [data|errs] eqn:Hc.
    + split; [reflexivity | discriminate].
    + split; [discriminate|]. intros _.
      apply consume_exhausted in Hc. cbn [app] in Hc. subst errs. apply Hfail.
Qed.

End TelemetryFacts.

Lemma sample_set_semantics : set_semantics Sample.runtime.
Proof.
  intros l. split; [apply NoDup_nodup | intros x; apply nodup_In].
Qed.

(** Two samples with Temperature 999, then a plausible one, then one more. *)
Lemma first_valid_sample_wins_witness :
  @validate_mqtt_sensor Sample.runtime Sample.session_third_valid
    (Sample.args "none") (VStr "tasmota_1A2B3C")
  = MqttValidationResult.Make true 1 "tele/tasmota_1A2B3C/SENSOR" []
      (Some Sample.payload_ok) 21.5%float.
Proof.
  apply (@first_valid_sample_wins Sample.runtime Sample.session_third_valid
           (Sample.args "none") (VStr "tasmota_1A2B3C")
           [ConnAck 0 "Success"; Poll 1.0 (Message Sample.raw_hot);
            Poll 11.0 (Message Sample.raw_hot)]
           21.0%float Sample.raw_ok Sample.payload_ok
           [Poll 31.0 (Message Sample.raw_ok)]).
  - reflexivity.
  - reflexivity.
  - assert (Hhot : forall t, PrimFloat.ltb t 45.0 = true ->
                     @passed_over Sample.runtime (Sample.args "none")
                       (Poll t (Message Sample.raw_hot))).
    { intros t Ht. split; [exact Ht|]. right.
      exists Sample.payload_hot,
             ["Value Temperature=999.0 out of range (10.0..85.0)"].
      split; [reflexivity|]. split; [reflexivity | discriminate]. }
    apply Forall_cons; [exact I|].
    apply Forall_cons; [apply Hhot; reflexivity|].
    apply Forall_cons; [apply Hhot; reflexivity|].
    apply Forall_nil.
  - reflexivity.
  - reflexivity.
  - reflexivity.
Defined.

(** C5, as the design document states it, does not hold: the accepted result carries the whole
    message, which is not the sensor block of that message. *)
Lemma first_payload_is_not_the_sensor_block :
  let r := @validate_mqtt_sensor Sample.runtime Sample.session_third_valid
             (Sample.args "none") (VStr "tasmota_1A2B3C") in
  MqttValidationResult.ok r = true /\
  get Sample.payload_ok "CustomBME280" VNone = Returns Sample.block_ok /\
  MqttValidationResult.first_payload r = Some Sample.payload_ok /\
  MqttValidationResult.first_payload r <> Some Sample.block_ok.
Proof.
  cbv zeta. repeat split; try reflexivity. vm_compute. discriminate.
Qed.

(** A run that rejects every sample, with a set listed by [nodup]. *)
Lemma errors_of_a_run_witness :
  let r := @validate_mqtt_sensor Sample.runtime Sample.session_never_valid
             (Sample.args "none") (VStr "tasmota_1A2B3C") in
  MqttValidationResult.ok r = false /\
  NoDup (MqttValidationResult.errors r) /\
  forall x, In x (MqttValidationResult.errors r) <->
            In x (@run_errors Sample.runtime (Sample.args "none")
                    Sample.session_never_valid).
Proof.
  pose proof (@errors_of_a_run Sample.runtime sample_set_semantics
                Sample.session_never_valid (Sample.args "none")
                (VStr "tasmota_1A2B3C")) as [_ H].
  cbv zeta. split; [reflexivity|].
  destruct (H eq_refl) as (H1 & H2 & _).
  split; [exact H1 | apply H2; vm_compute; discriminate].
Defined.

(** C9, as the design document states it, does not hold: in a run that accepts the third sample
    after rejecting two, the error list is empty although the rejected
    samples left validation errors. *)
Lemma accepted_run_drops_accumulated_errors :
  let r := @validate_mqtt_sensor Sample.runtime Sample.session_third_valid
             (Sample.args "none") (VStr "tasmota_1A2B3C") in
  MqttValidationResult.ok r = true /\
  @run_errors Sample.runtime (Sample.args "none") Sample.session_third_valid
  = ["Value Temperature=999.0 out of range (10.0..85.0)";
     "Value Temperature=999.0 out of range (10.0..85.0)"] /\
  MqttValidationResult.errors r = [] /\
  MqttValidationResult.errors r
  <> ["Value Temperature=999.0 out of range (10.0..85.0)"].
Proof.
  cbv zeta. repeat split; try reflexivity. vm_compute. discriminate.
Qed.

(** ** Orchestrator and run report *)

Section OrchestratorFacts.
Context {rt : Runtime}.

Lemma refresh_topic_tag w d :
  DeviceInfo.discovered_by (refresh_topic w d) = DeviceInfo.discovered_by d.
Proof.
  unfold refresh_topic.
  destruct (negb _ || _); [| reflexivity].
  destruct (http w _) as [e | status [r | e]]; try reflexivity.
  destruct (bind _ _); reflexivity.
Qed.

Lemma validate_all_tags w args devices : forall mqtt_results,
  map DeviceInfo.discovered_by (fst (validate_all w args devices mqtt_results))
  = map DeviceInfo.discovered_by devices.
Proof.
  induction devices as [|d rest IH]; intros mqtt_results; cbn [validate_all].
  - reflexivity.
  - match goal with
    | |- context [validate_all w args rest ?m] =>
        specialize (IH m); destruct (validate_all w args rest m) as [rest' final]
    end.
    cbn [fst map] in *. rewrite IH, refresh_topic_tag. reflexivity.
Qed.

Lemma provision_and_discover_tags w args devices prov_results :
  provision_and_discover w args = Returns (devices, prov_results) ->
  Forall (fun d => DeviceInfo.discovered_by d = "http-probe" \/
                   DeviceInfo.discovered_by d = "manual") devices.
Proof.
  assert (Hscan : forall c p n ds, scan_network w c p n = Returns ds ->
            Forall (fun d => DeviceInfo.discovered_by d = "http-probe" \/
                             DeviceInfo.discovered_by d = "manual") ds).
  { intros c p n ds H. apply scan_network_tags in H.
    eapply Forall_impl; [| exact H]. cbn; auto. }
  unfold provision_and_discover.
  destruct (String.eqb (provision_via args) "serial").
  - destruct (truthy_str (find_port w (comports w))).
    + destruct (ProvisionResult.ok _ && truthy_str (cidr args)).
      * destruct (scan_network w _ 80 200) as [ds|] eqn:Hs; cbn [bind];
          [| discriminate].
        intros [= <- _]. eapply Hscan; eauto.
      * intros [= <- _]. constructor.
    + intros [= <- _]. constructor.
  - destruct (truthy_str (target_ip args)); cbn [bind].
    + destruct (String.eqb (provision_via args) "http"); cbn [andb];
        intros [= <- _]; (apply Forall_cons; [right; reflexivity | apply Forall_nil]).
    + destruct (truthy_str (cidr args)).
      * destruct (scan_network w _ 80 200) as [ds|] eqn:Hs; cbn [bind];
          [| discriminate].
        destruct (String.eqb (provision_via args) "http" && _);
          intros [= <- _]; eapply Hscan; eauto.
      * cbn [bind]. rewrite andb_false_r. intros [= <- _]. constructor.
Qed.

(** C7 (as the code has it). Every record the network sweep emits carries
    the provenance tag [http-probe], and every record in the device list of
    a run report is tagged [http-probe] or [manual]; the tags [scan] and
    [serial-rediscovery] are never assigned. *)
Theorem discovery_provenance_tags :
  (forall w cidr port concurrency devices,
      scan_network w cidr port concurrency = Returns devices ->
      Forall (fun d => DeviceInfo.discovered_by d = "http-probe") devices) /\
  (forall w args report,
      main w args = Returns report ->
      Forall (fun d => DeviceInfo.discovered_by d = "http-probe" \/
                       DeviceInfo.discovered_by d = "manual")
             (discovered_devices report)).
Proof.
  split; [apply scan_network_tags|].
  intros w args report. unfold main.
  destruct (provision_and_discover w args) as [[devices prov_results]|] eqn:H1;
    cbn [bind]; [| discriminate].
  pose proof (validate_all_tags w args devices []) as Htags.
  destruct (validate_all w args devices []) as [devices' mqtt_results].
  intros [= <-]. cbn [discovered_devices final_report fst] in *.
  apply provision_and_discover_tags in H1.
  rewrite Forall_forall in *. intros d' Hd'.
  apply (in_map DeviceInfo.discovered_by) in Hd'. rewrite Htags in Hd'.
  apply in_map_iff in Hd' as (d & <- & Hd). apply H1; assumption.
Qed.

End OrchestratorFacts.

(** A sweep over two addresses, and a run on one manual address. *)
Lemma discovery_provenance_tags_witness :
  Forall (fun d => DeviceInfo.discovered_by d = "http-probe")
    [identity_record "192.168.1.1" 80 []; identity_record "192.168.1.2" 80 []] /\
  exists report,
    @main Sample.runtime (Sample.world Sample.reply_status_without_topic Sample.line_ok)
      (Sample.args "none") = Returns report /\
    Forall (fun d => DeviceInfo.discovered_by d = "http-probe" \/
                     DeviceInfo.discovered_by d = "manual")
           (discovered_devices report).
Proof.
  split.
  - apply (proj1 (@discovery_provenance_tags Sample.runtime)
             (Sample.world Sample.reply_status_without_topic Sample.line_ok)
             "192.168.1.0/30" 80%Z 200%Z).
    reflexivity.
  - eexists. split; [reflexivity|].
    apply (proj2 (@discovery_provenance_tags Sample.runtime)
             (Sample.world Sample.reply_status_without_topic Sample.line_ok)
             (Sample.args "none")).
    reflexivity.
Defined.

(** C7, as the design document states it, does not hold: the records of a sweep are tagged
    [http-probe], which is none of [scan], [manual], [serial-rediscovery]. *)
Lemma sweep_record_is_not_tagged_scan :
  exists d devices,
    scan_network (Sample.world Sample.reply_status_without_topic Sample.line_ok)
      "192.168.1.0/30" 80 200 = Returns devices /\
    In d devices /\
    DeviceInfo.discovered_by d = "http-probe" /\
    DeviceInfo.discovered_by d <> "scan" /\
    DeviceInfo.discovered_by d <> "manual" /\
    DeviceInfo.discovered_by d <> "serial-rediscovery".
Proof.
  exists (identity_record "192.168.1.1" 80 []).
  eexists. split; [reflexivity|]. split; [left; reflexivity|].
  repeat split; try reflexivity; cbn; discriminate.
Qed.

(** ** Secrets in the run report *)

Section SecretFacts.
Context {rt : Runtime}.

Lemma append_nil_r s : s +:+ "" = s.
Proof. induction s as [|c s IH]; cbn; [reflexivity | rewrite IH; reflexivity]. Qed.

Lemma append_assoc a b c : (a +:+ b) +:+ c = a +:+ b +:+ c.
Proof. induction a as [|x a IH]; cbn; [reflexivity | rewrite IH; reflexivity]. Qed.

Lemma prefix_app sub b : String.prefix sub (sub +:+ b) = true.
Proof.
  induction sub as [|c sub IH]; cbn.
  - destruct b; reflexivity.
  - destruct (ascii_dec c c); [exact IH | contradiction].
Qed.

Lemma str_contains_prefix sub s :
  String.prefix sub s = true -> str_contains sub s = true.
Proof. intros H. destruct s; cbn [str_contains]; rewrite H; reflexivity. Qed.

Lemma str_contains_app sub a b : str_contains sub (a +:+ sub +:+ b) = true.
Proof.
  induction a as [|c a IH]; cbn [String.append].
  - apply str_contains_prefix, prefix_app.
  - cbn [str_contains]. rewrite IH. apply orb_true_r.
Qed.

Lemma concat_in sep x l :
  In x l -> exists a b, String.concat sep l = a +:+ x +:+ b.
Proof.
  induction l as [|y l IH]; [intros []|].
  intros Hin. destruct l as [|z l].
  - destruct Hin as [->|[]]. exists "", "". cbn. symmetry. apply append_nil_r.
  - change (String.concat sep (y :: z :: l))
      with (y +:+ sep +:+ String.concat sep (z :: l)).
    destruct Hin as [->|Hin].
    + exists "". eexists. reflexivity.
    + destruct (IH Hin) as (a & b & ->).
      exists (y +:+ sep +:+ a), b. rewrite !append_assoc. reflexivity.
Qed.

(** Every directive of the backlog is a substring of the composite command. *)
Lemma full_cmd_contains args c :
  In c (http_backlog args) -> str_contains c (full_cmd args) = true.
Proof.
  intros Hin. unfold full_cmd.
  destruct (concat_in "; " c (http_backlog args) Hin) as (a & b & ->).
  rewrite <- append_assoc. apply str_contains_app.
Qed.

Lemma truthy_str_some pw : pw <> "" -> truthy_str (Some pw) = true.
Proof.
  intros H. cbn. destruct (String.eqb_spec pw ""); [contradiction | reflexivity].
Qed.

Lemma http_backlog_passwords args :
  (forall pw, mqtt_password args = Some pw -> pw <> "" ->
              In ("MqttPassword " +:+ pw) (http_backlog args)) /\
  (forall pw, truthy_str (wifi_ssid args) = true ->
              wifi_password args = Some pw -> pw <> "" ->
              In ("Password1 " +:+ pw) (http_backlog args)).
Proof.
  unfold http_backlog. split.
  - intros pw E Hne. rewrite E, (truthy_str_some pw Hne).
    rewrite !in_app_iff. cbn. auto 10.
  - intros pw Hs E Hne. rewrite Hs, E, (truthy_str_some pw Hne).
    rewrite !in_app_iff. cbn. auto 10.
Qed.

Lemma serial_commands_passwords args :
  (forall pw, mqtt_password args = Some pw -> pw <> "" ->
              In ("MqttPassword " +:+ pw) (serial_commands args)) /\
  (forall pw, truthy_str (wifi_ssid args) = true ->
              wifi_password args = Some pw -> pw <> "" ->
              In ("Password1 " +:+ pw) (serial_commands args)).
Proof.
  unfold serial_commands. split.
  - intros pw E Hne. rewrite E, (truthy_str_some pw Hne).
    rewrite !in_app_iff. cbn. auto 10.
  - intros pw Hs E Hne. rewrite Hs, E, (truthy_str_some pw Hne).
    rewrite !in_app_iff. cbn. auto 10.
Qed.

(** On a line that answers everything, each command sent is in
    [commands_sent] and is a key of [responses]. *)
Lemma provision_via_serial_records w port args c :
  setup_error (serial w port) = None ->
  (forall n c', exists r, reply (serial w port) n c' = Responds r) ->
  In c (serial_commands args) ->
  let res := provision_via_serial w port args in
  ProvisionResult.ok res = true /\
  In c (ProvisionResult.commands_sent res) /\
  exists rs, ProvisionResult.responses res = VDict rs /\ dict_get c rs <> None.
Proof.
  intros Hopen Hall Hin res. subst res. unfold provision_via_serial.
  rewrite Hopen, serial_body_send_all.
  destruct (send_all_answers (serial w port) (serial_commands args)
              {| cmds := []; resps := [] |} Hall) as (rs & Hrun & Hkeys).
  rewrite Hrun. cbn. split; [reflexivity|]. split; [exact Hin|].
  exists rs. split; [reflexivity|]. apply Hkeys. right; exact Hin.
Qed.

Lemma config_used_without_passwords w args devices prov_results mqtt_results :
  let report := final_report w args devices prov_results mqtt_results in
  Forall (fun kv => str_contains "password" (fst kv) = false) (config_used report) /\
  forall mqtt_pw wifi_pw devices' prov_results' mqtt_results',
    config_used (final_report w (with_passwords mqtt_pw wifi_pw args)
                   devices' prov_results' mqtt_results')
    = config_used report.
Proof.
  cbv zeta. split.
  - cbn [config_used final_report]. apply Forall_forall. intros kv Hkv.
    apply filter_In in Hkv as [_ H]. destruct (str_contains _ _); [discriminate | reflexivity].
  - intros. reflexivity.
Qed.

Lemma main_report_parts w args report :
  main w args = Returns report ->
  exists devices devices' mqtt_results,
    provision_and_discover w args = Returns (devices, provisioning_logs report) /\
    report = final_report w args devices' (provisioning_logs report) mqtt_results.
Proof.
  unfold main.
  destruct (provision_and_discover w args) as [[devices prov_results]|];
    cbn [bind]; [| discriminate].
  destruct (validate_all w args devices []) as [devices' mqtt_results].
  intros [= <-]. exists devices, devices', mqtt_results. split; reflexivity.
Qed.

Lemma main_http_manual w args :
  provision_via args = "http" ->
  truthy_str (target_ip args) = true ->
  exists report,
    main w args = Returns report /\
    provisioning_logs report =
      [(str_opt (target_ip args),
        provision_via_http w
          (DeviceInfo.Make (str_opt (target_ip args)) 80 VNone VNone "manual") args)].
Proof.
  intros Hvia Htarget. unfold main, provision_and_discover.
  rewrite Hvia, Htarget. cbn [String.eqb Ascii.eqb Bool.eqb andb bind provision_all].
  destruct (validate_all w args _ []) as [devices' mqtt_results].
  eexists. split; reflexivity.
Qed.

(** C10 (as the code has it). A broker password, and a WiFi password given
    together with an SSID, are embedded in plaintext in the composite
    command the HTTP strategy records in [commands_sent], whatever the
    outcome; the Serial strategy, on a line that answers every command,
    records the password directive in [commands_sent] and as a key of
    [responses].  The run report carries the provisioning results as the
    strategies returned them, while [config_used] has no field whose name
    contains [password] and does not change with the passwords: two runs
    that differ only in the broker password give different reports. *)
Theorem passwords_reach_the_report :
  (forall w dev args pw,
      mqtt_password args = Some pw -> pw <> "" ->
      ProvisionResult.commands_sent (provision_via_http w dev args) = [full_cmd args] /\
      str_contains ("MqttPassword " +:+ pw) (full_cmd args) = true) /\
  (forall w dev args pw,
      truthy_str (wifi_ssid args) = true -> wifi_password args = Some pw -> pw <> "" ->
      ProvisionResult.commands_sent (provision_via_http w dev args) = [full_cmd args] /\
      str_contains ("Password1 " +:+ pw) (full_cmd args) = true) /\
  (forall w port args pw,
      setup_error (serial w port) = None ->
      (forall n c, exists r, reply (serial w port) n c = Responds r) ->
      mqtt_password args = Some pw -> pw <> "" ->
      let res := provision_via_serial w port args in
      In ("MqttPassword " +:+ pw) (ProvisionResult.commands_sent res) /\
      exists rs, ProvisionResult.responses res = VDict rs /\
                 dict_get ("MqttPassword " +:+ pw) rs <> None) /\
  (forall w port args pw,
      setup_error (serial w port) = None ->
      (forall n c, exists r, reply (serial w port) n c = Responds r) ->
      truthy_str (wifi_ssid args) = true -> wifi_password args = Some pw -> pw <> "" ->
      let res := provision_via_serial w port args in
      In ("Password1 " +:+ pw) (ProvisionResult.commands_sent res) /\
      exists rs, ProvisionResult.responses res = VDict rs /\
                 dict_get ("Password1 " +:+ pw) rs <> None) /\
  (forall w args report,
      main w args = Returns report ->
      (exists devices,
          provision_and_discover w args = Returns (devices, provisioning_logs report)) /\
      Forall (fun kv => str_contains "password" (fst kv) = false) (config_used report) /\
      forall mqtt_pw wifi_pw report',
        main w (with_passwords mqtt_pw wifi_pw args) = Returns report' ->
        config_used report' = config_used report) /\
  (forall w args,
      provision_via args = "http" -> truthy_str (target_ip args) = true ->
      exists report,
        main w args = Returns report /\
        provisioning_logs report =
          [(str_opt (target_ip args),
            provision_via_http w
              (DeviceInfo.Make (str_opt (target_ip args)) 80 VNone VNone "manual")
              args)]) /\
  (exists w args mqtt_pw report report',
      main w args = Returns report /\
      main w (with_passwords mqtt_pw (wifi_password args) args) = Returns report' /\
      config_used report' = config_used report /\
      provisioning_logs report' <> provisioning_logs report).
Proof.
  assert (Hcmd : forall w dev args,
             ProvisionResult.commands_sent (provision_via_http w dev args)
             = [full_cmd args]).
  { intros w dev args. unfold provision_via_http.
    destruct (http w _) as [e | status [j | e]]; reflexivity. }
  repeat apply conj.
  - intros w dev args pw E Hne. split; [apply Hcmd|].
    apply full_cmd_contains, http_backlog_passwords; assumption.
  - intros w dev args pw Hs E Hne. split; [apply Hcmd|].
    apply full_cmd_contains, http_backlog_passwords; assumption.
  - intros w port args pw Hopen Hall E Hne.
    apply provision_via_serial_records; try assumption.
    apply serial_commands_passwords; assumption.
  - intros w port args pw Hopen Hall Hs E Hne.
    apply provision_via_serial_records; try assumption.
    apply serial_commands_passwords; assumption.
  - intros w args report Hmain.
    destruct (main_report_parts w args report Hmain)
      as (devices & devices' & mqtt_results & Hprov & Hrep).
    split; [eauto|].
    destruct (config_used_without_passwords w args devices'
                (provisioning_logs report) mqtt_results) as [Hnone Hsame].
    rewrite <- Hrep in Hnone, Hsame. split; [exact Hnone|].
    intros mqtt_pw wifi_pw report' Hmain'.
    destruct (main_report_parts _ _ _ Hmain') as (ds & ds' & ms & _ & Hrep').
    rewrite Hrep'. apply Hsame.
  - apply main_http_manual.
  - exists (Sample.world Sample.reply_404 Sample.line_ok), (Sample.args "http"),
           (Some "0ther").
    do 2 eexists. split; [reflexivity|]. split; [reflexivity|].
    split; [reflexivity|]. vm_compute. discriminate.
Qed.

End SecretFacts.

(** Both passwords of the sample configuration are in its composite command. *)
Lemma passwords_reach_the_report_witness :
  str_contains "MqttPassword s3cret" (full_cmd (Sample.args "http")) = true /\
  str_contains "Password1 hunter2" (full_cmd (Sample.args "http")) = true.
Proof.
  split.
  - apply (proj1 (@passwords_reach_the_report Sample.runtime)
             (Sample.world Sample.reply_404 Sample.line_ok) Sample.device
             (Sample.args "http") "s3cret"); [reflexivity | discriminate].
  - apply (proj1 (proj2 (@passwords_reach_the_report Sample.runtime))
             (Sample.world Sample.reply_404 Sample.line_ok) Sample.device
             (Sample.args "http") "hunter2"); [reflexivity | reflexivity | discriminate].
Defined.

(** C10, as the design document states it, does not hold: a WiFi password given without an SSID
    is in no command of either strategy. *)
Lemma wifi_password_without_ssid_is_not_sent :
  wifi_password (Sample.args_no_ssid "http") = Some "hunter2" /\
  ProvisionResult.commands_sent
    (provision_via_http (Sample.world Sample.reply_404 Sample.line_ok)
       Sample.device (Sample.args_no_ssid "http"))
  = ["Backlog MqttHost 192.168.1.100; MqttPort 1883; TelePeriod 10; Restart 1"] /\
  ProvisionResult.commands_sent
    (provision_via_serial (Sample.world Sample.reply_404 Sample.line_ok)
       "/dev/ttyUSB0" (Sample.args_no_ssid "serial"))
  = ["MqttHost 192.168.1.100"; "MqttPort 1883"; "TelePeriod 10"; "Restart 1"] /\
  forallb (fun c => negb (str_contains "hunter2" c))
    (ProvisionResult.commands_sent
       (provision_via_http (Sample.world Sample.reply_404 Sample.line_ok)
          Sample.device (Sample.args_no_ssid "http")) ++
     ProvisionResult.commands_sent
       (provision_via_serial (Sample.world Sample.reply_404 Sample.line_ok)
          "/dev/ttyUSB0" (Sample.args_no_ssid "serial")))
  = true.
Proof. repeat split; reflexivity. Qed.

(** ** Worked examples *)

(** Zero readings are out of range and also draw the suspicious-reading
    warning; a text that is not a number is reported as such. *)
Example validate_zero_readings :
  @validate_sensor_data Sample.runtime
    (VDict [("CustomBME280",
             VDict [("Temperature", VInt 0); ("Humidity", VFloat 0.0);
                    ("Pressure", VStr "n/a")])])
    "CustomBME280"
  = Returns ["Value Temperature=0.0 out of range (10.0..85.0)";
             "Field Pressure is not a valid number";
             "Suspicious reading: Zero values might indicate sensor communication failure"].
Proof. reflexivity. Qed.

Example validate_missing_block :
  @validate_sensor_data Sample.runtime Sample.payload_ok "BME680"
  = Returns ["Sensor 'BME680' not found in JSON"].
Proof. reflexivity. Qed.

(** A sensor block that is not an object makes the validator raise. *)
Example validate_block_not_an_object :
  @validate_sensor_data Sample.runtime (VDict [("CustomBME280", VInt 3)])
    "CustomBME280"
  = Raises (Exn AttributeError "'int' object has no attribute 'get'").
Proof. reflexivity. Qed.

(** No message before the budget runs out: the synthesized error. *)
Example validate_mqtt_sensor_idle :
  @validate_mqtt_sensor Sample.runtime Sample.idle_session
    (Sample.args "none") (VStr "tasmota_1A2B3C")
  = MqttValidationResult.Make false 0 "tele/tasmota_1A2B3C/SENSOR"
      ["No valid telemetry received"] None 2.0%float.
Proof. reflexivity. Qed.

(** A run on one manual address without provisioning: one record tagged
    [manual], nothing provisioned, and no validation since the identity
    query gives no topic. *)
Example main_manual_without_provisioning :
  exists report,
    @main Sample.runtime (Sample.world Sample.reply_404 Sample.line_ok)
      (Sample.args "none") = Returns report /\
    discovered_devices report = [Sample.device] /\
    provisioning_logs report = [] /\
    mqtt_validation report = [].
Proof. eexists. repeat split; reflexivity. Qed.

(* ================================================================== *)
(** * Further properties of the code *)
(* ================================================================== *)

(** ** More on the sensor validator *)

Section ValidatorMore.
Context {rt : Runtime}.

Lemma float_zero_below_ten f :
  PrimFloat.eqb f 0%float = true -> PrimFloat.leb 10%float f = false.
Proof.
  rewrite FloatAxioms.eqb_spec, FloatAxioms.leb_spec.
  destruct (FloatOps.Prim2SF f) as [s| s | | s m e]; cbn; try discriminate.
  - reflexivity.
  - destruct s; discriminate.
  - destruct s; discriminate.
Qed.

Lemma float_of_int_raises z e :
  float_of_int z = Raises e ->
  e = Exn OverflowError "int too large to convert to float".
Proof.
  unfold float_of_int.
  destruct (SpecFloat.binary_normalize _ _ _ _ _); intros [=]; congruence.
Qed.

(** A value equal to zero converts to a float below the Temperature range. *)
Lemma eq_zero_out_of_temperature_range t f :
  eq_zero t = true -> to_float t = Returns f -> within 10.0 85.0 f = false.
Proof.
  unfold within. destruct t as [| b | z | f0 | | |]; cbn [eq_zero to_float];
    try discriminate.
  - destruct b; [discriminate|]. intros _ [= <-]. reflexivity.
  - intros Hz. apply Z.eqb_eq in Hz. subst z. intros [= <-]. reflexivity.
  - intros Hz [= <-]. rewrite (float_zero_below_ten _ Hz). reflexivity.
Qed.

Lemma quantity_ok_temperature_not_zero block :
  quantity_ok block "Temperature" 10.0 85.0 -> ~ both_zero block.
Proof.
  intros (v & f & Hv & Hf & Hw) (t & h & Ht & _ & Zt & _).
  rewrite Hv in Ht. injection Ht as ->.
  rewrite (eq_zero_out_of_temperature_range t f Zt Hf) in Hw. discriminate.
Qed.

(** On an object that has the named entry, the validator is the loop over
    the limits followed by the zero test. *)
Lemma validate_on_block d name s :
  dict_get name d = Some s ->
  validate_sensor_data (VDict d) name
  = bind (check_fields limits s []) (suspicious_zero s).
Proof.
  intros H. unfold validate_sensor_data. cbn [contains bind]. rewrite H.
  cbn [negb get bind]. rewrite H. reflexivity.
Qed.

Lemma validate_returns_nil_inv payload name :
  validate_sensor_data payload name = Returns [] ->
  exists d block, payload = VDict d /\ dict_get name d = Some (VDict block).
Proof.
  unfold validate_sensor_data.
  destruct payload as [| | | | s | l | d]; cbn [contains bind]; try discriminate.
  - destruct (str_contains name s); discriminate.
  - destruct (existsb _ l); discriminate.
  - destruct (dict_get name d) as [blk|] eqn:Hblk; cbn [negb get bind];
      [| discriminate].
    rewrite Hblk. destruct blk; try discriminate. eauto.
Qed.

(** X1. The validator returns the empty list exactly when the named block is
    an object whose Temperature, Humidity and Pressure are present, numeric
    and within their bounds: a reading that passes the Temperature range is
    never zero, so the zero test cannot reject a sample on its own. *)
Theorem validity_is_decided_by_the_ranges payload name :
  validate_sensor_data payload name = Returns [] <->
  exists d block,
    payload = VDict d /\
    dict_get name d = Some (VDict block) /\
    quantity_ok block "Temperature" 10.0 85.0 /\
    quantity_ok block "Humidity" 0.0 100.0 /\
    quantity_ok block "Pressure" 700.0 1150.0.
Proof.
  split.
  - intros H. destruct (validate_returns_nil_inv _ _ H) as (d & block & -> & Hb).
    exists d, block. split; [reflexivity|]. split; [exact Hb|].
    rewrite (validate_on_block d name _ Hb) in H.
    destruct (check_fields limits (VDict block) []) as [errs|] eqn:E;
      cbn [bind] in H; [| discriminate].
    assert (errs = []) as ->.
    { apply suspicious_zero_grows in H as [H|[m H]];
        [congruence | symmetry in H; apply app_single_not_nil in H; tauto]. }
    apply check_fields_empty_iff, quantities_ok_limits in E. exact E.
  - intros (d & block & -> & Hb & Ht & Hh & Hp).
    rewrite (validate_on_block d name _ Hb).
    assert (E : check_fields limits (VDict block) [] = Returns []).
    { apply check_fields_empty_iff, quantities_ok_limits; auto. }
    rewrite E; cbn [bind]. apply suspicious_zero_empty.
    apply quantity_ok_temperature_not_zero; assumption.
Qed.

(** One pass of the loop raises only on an integer that is too large for a
    float. *)
Lemma check_field_raises block errs key lo hi e :
  check_field (VDict block) errs (key, (lo, hi)) = Raises e ->
  exists z, dict_get key block = Some (VInt z) /\ float_of_int z = Raises e /\
            exn_kind e = OverflowError.
Proof.
  unfold check_field. cbn [get bind].
  destruct (dict_get key block) as [v|]; [| discriminate].
  destruct v as [| b | z | f | s | l | d]; cbn [to_float]; try discriminate.
  - destruct (negb _); discriminate.
  - destruct (float_of_int z) as [f|e0] eqn:Hz.
    + destruct (negb _); discriminate.
    + pose proof (float_of_int_raises z e0 Hz) as ->. cbn.
      intros [= <-]. exists z. auto.
  - destruct (negb _); discriminate.
  - destruct (float_of_str s); cbn; [destruct (negb _)|]; discriminate.
Qed.

Lemma check_fields_raises block lims : forall errs e,
  check_fields lims (VDict block) errs = Raises e ->
  exists key z, In key (map fst lims) /\ dict_get key block = Some (VInt z) /\
                float_of_int z = Raises e /\ exn_kind e = OverflowError.
Proof.
  induction lims as [|[key [lo hi]] rest IH]; intros errs e; cbn [check_fields].
  - discriminate.
  - destruct (check_field (VDict block) errs (key, (lo, hi))) as [errs'|e0] eqn:E;
      cbn [bind].
    + intros H. destruct (IH _ _ H) as (k & z & Hin & Hrest).
      exists k, z. split; [right; exact Hin | exact Hrest].
    + intros [= <-]. destruct (check_field_raises _ _ _ _ _ _ E) as (z & Hz).
      exists key, z. split; [left; reflexivity | exact Hz].
Qed.

Lemma check_fields_length lims s : forall errs errs',
  check_fields lims s errs = Returns errs' ->
  length errs' <= length errs + length lims.
Proof.
  induction lims as [|lim rest IH]; intros errs errs'; cbn [check_fields].
  - intros [= <-]. lia.
  - destruct (check_field s errs lim) as [e1|] eqn:E; cbn [bind]; [| discriminate].
    intros H. apply IH in H. cbn [length].
    apply check_field_grows in E as [->|[m ->]]; [lia|].
    rewrite length_app in H; cbn [length] in H. lia.
Qed.

(** X2. On an object payload whose named block is an object and whose
    integer quantities fit the float range, the validator returns a list
    (it does not raise), and the list has at most four entries: one per
    quantity and the zero warning. *)
Theorem validator_returns_on_object_samples d name block :
  dict_get name d = Some (VDict block) ->
  ints_convert block ->
  exists errs, validate_sensor_data (VDict d) name = Returns errs /\
               length errs <= 4.
Proof.
  intros Hb Hints. rewrite (validate_on_block d name _ Hb).
  destruct (check_fields limits (VDict block) []) as [errs|e] eqn:E; cbn [bind].
  - apply check_fields_length in E. cbn [length limits] in E.
    destruct (suspicious_zero (VDict block) errs) as [errs'|e] eqn:Z.
    + exists errs'. split; [reflexivity|].
      apply suspicious_zero_grows in Z as [->|[m ->]];
        [| rewrite length_app; cbn [length]]; lia.
    + unfold suspicious_zero in Z. cbn [get bind] in Z.
      repeat match type of Z with context [if ?b then _ else _] => destruct b end;
        discriminate.
  - apply check_fields_raises in E as (key & z & Hin & Hz & Hraise & _).
    destruct (Hints key z Hin Hz) as [f Hf]. congruence.
Qed.

(** X3. When the validator raises, it is a [TypeError] on a payload that is
    no object, list or string, an [AttributeError] on a list or string
    payload or on a named block that is no object, or an [OverflowError] on
    an integer quantity beyond the float range. *)
Theorem validator_raise_cases payload name e :
  validate_sensor_data payload name = Raises e ->
  (exn_kind e = TypeError /\
   match payload with
   | VNone | VBool _ | VInt _ | VFloat _ => True
   | _ => False
   end) \/
  (exn_kind e = AttributeError /\
   match payload with
   | VStr s => str_contains name s = true
   | VList l => In (VStr name) l
   | VDict d => exists s, dict_get name d = Some s /\
                          match s with VDict _ => False | _ => True end
   | _ => False
   end) \/
  (exn_kind e = OverflowError /\
   exists d block key z,
     payload = VDict d /\ dict_get name d = Some (VDict block) /\
     In key (map fst limits) /\ dict_get key block = Some (VInt z) /\
     float_of_int z = Raises e).
Proof.
  unfold validate_sensor_data.
  destruct payload as [| b | z | f | s | l | d]; cbn [contains bind];
    try (intros [= <-]; left; split; [reflexivity | exact I]).
  - destruct (str_contains name s) eqn:Hs; cbn [negb get bind]; [| discriminate].
    intros [= <-]. right; left. split; reflexivity.
  - destruct (existsb _ l) eqn:Hl; cbn [negb get bind]; [| discriminate].
    intros [= <-]. right; left. split; [reflexivity|].
    apply existsb_exists in Hl as (x & Hin & Hx).
    destruct x; try discriminate. apply String.eqb_eq in Hx. subst. exact Hin.
  - destruct (dict_get name d) as [blk|] eqn:Hblk; cbn [negb get bind];
      [| discriminate].
    rewrite Hblk.
    destruct blk as [| | | | | | block];
      try (cbn; intros [= <-]; right; left; split; [reflexivity|];
           eexists; split; [reflexivity | exact I]).
    destruct (check_fields limits (VDict block) []) as [errs|e0] eqn:E; cbn [bind].
    + unfold suspicious_zero. cbn [get bind].
      repeat match goal with |- context [if ?b then _ else _] => destruct b end;
        discriminate.
    + intros [= <-].
      apply check_fields_raises in E as (key & z & Hin & Hz & Hraise & Hk).
      right; right. split; [exact Hk|]. exists d, block, key, z. auto.
Qed.

Lemma check_field_agree b b' errs key lo hi :
  dict_get key b = dict_get key b' ->
  check_field (VDict b) errs (key, (lo, hi))
  = check_field (VDict b') errs (key, (lo, hi)).
Proof. intros H. unfold check_field. cbn [get]. rewrite H. reflexivity. Qed.

Lemma check_fields_agree b b' lims : forall errs,
  (forall key, In key (map fst lims) -> dict_get key b = dict_get key b') ->
  check_fields lims (VDict b) errs = check_fields lims (VDict b') errs.
Proof.
  induction lims as [|[key [lo hi]] rest IH]; intros errs H; cbn [check_fields].
  - reflexivity.
  - rewrite (check_field_agree b b') by (apply H; left; reflexivity).
    destruct (check_field _ _ _); cbn [bind]; [| reflexivity].
    apply IH. intros k Hk. apply H. right; exact Hk.
Qed.

(** X4. The verdict depends on nothing but the three quantities of the
    named block: two object payloads whose named blocks agree on
    Temperature, Humidity and Pressure get the same result, whatever else
    the payloads or the blocks contain. *)
Theorem validator_reads_only_the_three_quantities d d' name block block' :
  dict_get name d = Some (VDict block) ->
  dict_get name d' = Some (VDict block') ->
  (forall key, In key (map fst limits) -> dict_get key block = dict_get key block') ->
  validate_sensor_data (VDict d) name = validate_sensor_data (VDict d') name.
Proof.
  intros Hb Hb' Hagree.
  rewrite (validate_on_block d name _ Hb), (validate_on_block d' name _ Hb').
  rewrite (check_fields_agree block block' limits [] Hagree).
  destruct (check_fields limits (VDict block') []) as [errs|]; cbn [bind];
    [| reflexivity].
  unfold suspicious_zero. cbn [get].
  rewrite (Hagree "Temperature"), (Hagree "Humidity");
    [reflexivity | cbn; auto | cbn; auto].
Qed.

Lemma check_field_missing block errs key lo hi :
  dict_get key block = None \/ dict_get key block = Some VNone ->
  check_field (VDict block) errs (key, (lo, hi))
  = Returns (errs ++ ["Field " +:+ key +:+ " is missing"]).
Proof. unfold check_field; cbn [get bind]. intros [-> | ->]; reflexivity. Qed.

(** X5. When the named block is an object that holds none of the three
    quantities (absent, or present with the value null), the validator
    reports each of them as missing, in the order Temperature, Humidity,
    Pressure, and nothing else. *)
Theorem absent_quantities_are_reported d name block :
  dict_get name d = Some (VDict block) ->
  (forall key, In key (map fst limits) ->
               dict_get key block = None \/ dict_get key block = Some VNone) ->
  validate_sensor_data (VDict d) name
  = Returns ["Field Temperature is missing"; "Field Humidity is missing";
             "Field Pressure is missing"].
Proof.
  intros Hb Habs. rewrite (validate_on_block d name _ Hb).
  assert (HT := Habs "Temperature" (or_introl eq_refl)).
  assert (HH := Habs "Humidity" (or_intror (or_introl eq_refl))).
  assert (HP := Habs "Pressure" (or_intror (or_intror (or_introl eq_refl)))).
  unfold limits. cbn [check_fields].
  rewrite (check_field_missing block [] "Temperature" _ _ HT). cbn [bind app].
  rewrite (check_field_missing block _ "Humidity" _ _ HH). cbn [bind app].
  rewrite (check_field_missing block _ "Pressure" _ _ HP). cbn [bind app].
  unfold suspicious_zero; cbn [get bind].
  destruct HT as [-> | ->]; reflexivity.
Qed.

End ValidatorMore.

(** ** More on discovery *)

Section DiscoveryMore.

Lemma probe_ip_address session ip port d :
  _probe_ip session ip port = Some d ->
  DeviceInfo.ip d = ip /\ DeviceInfo.port d = port.
Proof.
  intros H. apply probe_ip_some in H as (body & st & _ & _ & ->). split; reflexivity.
Qed.

Lemma somes_map_ip session port ips :
  map DeviceInfo.ip (somes (map (fun ip => _probe_ip session ip port) ips))
  = filter (fun ip => match _probe_ip session ip port with
                      | Some _ => true
                      | None => false
                      end) ips.
Proof.
  induction ips as [|ip ips IH]; cbn [map somes filter]; [reflexivity|].
  destruct (_probe_ip session ip port) as [d|] eqn:E; cbn [map somes].
  - rewrite IH. apply probe_ip_address in E as [-> _]. reflexivity.
  - exact IH.
Qed.

(** X6. The records of a sweep are those of the host addresses whose probe
    succeeded, in the order of the addresses and one per address: there
    are at most as many records as addresses, each carries the address
    and port that were probed, and no address occurs twice when the
    range lists none twice. *)
Theorem scan_network_one_record_per_address w cidr port concurrency ips devices :
  network_hosts w cidr = Returns ips ->
  scan_network w cidr port concurrency = Returns devices ->
  map DeviceInfo.ip devices
    = filter (fun ip => match _probe_ip (http w) ip port with
                        | Some _ => true
                        | None => false
                        end) ips /\
  Forall (fun d => DeviceInfo.port d = port) devices /\
  length devices <= length ips /\
  (NoDup ips -> NoDup (map DeviceInfo.ip devices)).
Proof.
  intros Hhosts. unfold scan_network. rewrite Hhosts. cbn [bind].
  intros [= <-].
  assert (Hmap := somes_map_ip (http w) port ips).
  split; [exact Hmap|]. split; [| split].
  - apply Forall_forall. intros d Hd.
    apply in_somes, in_map_iff in Hd as (ip & H & _).
    apply probe_ip_address in H as [_ H]. exact H.
  - rewrite <- (length_map DeviceInfo.ip), Hmap. apply filter_length_le.
  - intros Hnd. rewrite Hmap. apply NoDup_filter. exact Hnd.
Qed.

End DiscoveryMore.

(** ** More on provisioning *)

Section ProvisioningMore.

Lemma last_app_single (A : Type) (l : list A) (x d : A) : last (l ++ [x]) d = x.
Proof. apply last_last. Qed.

Lemma serial_commands_nodup args : NoDup (serial_commands args).
Proof.
  unfold serial_commands.
  destruct (truthy_str (wifi_ssid args)), (truthy_str (wifi_password args)),
    (truthy_str (mqtt_user args)), (truthy_str (mqtt_password args));
    cbn [app];
    repeat (constructor;
            [cbn [In String.append]; intuition discriminate|]);
    constructor.
Qed.

Lemma http_backlog_nodup args : NoDup (http_backlog args).
Proof.
  unfold http_backlog.
  destruct (truthy_str (wifi_ssid args)), (truthy_str (wifi_password args)),
    (truthy_str (mqtt_user args)), (truthy_str (mqtt_password args));
    cbn [app];
    repeat (constructor;
            [cbn [In String.append]; intuition discriminate|]);
    constructor.
Qed.

Lemma dict_set_fresh (A : Type) k (v : A) d :
  dict_get k d = None -> dict_set k v d = d ++ [(k, v)].
Proof.
  induction d as [|[k0 v0] d IH]; cbn; [reflexivity|].
  destruct (String.eqb k k0); [discriminate|]. intros H. rewrite IH by exact H.
  reflexivity.
Qed.

(** Sending commands that are pairwise distinct and not yet answered: the
    commands recorded are a prefix of the list, and the responses are those
    of the commands answered, in order. *)
Lemma send_all_trace ser cs : forall st,
  NoDup cs ->
  (forall c, In c cs -> dict_get c (resps st) = None) ->
  exists k o st',
    send_all ser cs st = (o, st') /\
    k <= length cs /\
    cmds st' = cmds st ++ firstn k cs /\
    match o with
    | None => k = length cs /\ map fst (resps st') = map fst (resps st) ++ cs
    | Some _ => 0 < k /\ map fst (resps st') = map fst (resps st) ++ firstn (k - 1) cs
    end.
Proof.
  induction cs as [|c0 cs IH]; intros st Hnd Hfresh; cbn [send_all].
  - exists 0, None, st. cbn. rewrite !app_nil_r. auto.
  - inversion Hnd as [|? ? Hnot Hnd']; subst.
    destruct (send_cases ser c0 st) as [(r & _ & Hsend) | (e & _ & Hsend)].
    + destruct (IH {| cmds := cmds st ++ [c0];
                      resps := dict_set c0 (VStr r) (resps st) |} Hnd')
        as (k & o & st' & Hrun & Hk & Hcmds & Hres).
      { intros c Hc. cbn [resps]. rewrite dict_get_set.
        destruct (String.eqb_spec c c0) as [->|_]; [contradiction|].
        apply Hfresh. right; exact Hc. }
      cbn [cmds resps] in *.
      rewrite (dict_set_fresh _ c0 (VStr r) (resps st)) in Hres
        by (apply Hfresh; left; reflexivity).
      rewrite map_app in Hres; cbn [map fst] in Hres.
      rewrite <- !app_assoc in Hres; cbn [app] in Hres.
      exists (S k), o, st'.
      split; [unfold seq; rewrite Hsend; exact Hrun|]. split; [cbn; lia|].
      split; [rewrite Hcmds, <- app_assoc; reflexivity|].
      destruct o as [e|].
      * destruct Hres as [Hpos Hres]. split; [lia|].
        replace (S k - 1) with (S (k - 1)) by lia. exact Hres.
      * destruct Hres as [-> Hres]. split; [reflexivity | exact Hres].
    + exists 1, (Some e). eexists.
      split; [unfold seq; rewrite Hsend; reflexivity|]. split; [cbn; lia|].
      cbn. rewrite app_nil_r. auto.
Qed.

(** X7. Whatever the serial line does, the commands recorded are an initial
    part of the command sequence, in order, and the responses recorded are
    those of the commands before the last one recorded when the run fails,
    of all of them when it succeeds, with one entry per command; success
    goes with no error text and failure with one. *)
Theorem provision_via_serial_progress w port args :
  let res := provision_via_serial w port args in
  exists k rs,
    k <= length (serial_commands args) /\
    ProvisionResult.commands_sent res = firstn k (serial_commands args) /\
    ProvisionResult.responses res = VDict rs /\
    if ProvisionResult.ok res
    then ProvisionResult.error res = None /\
         k = length (serial_commands args) /\
         map fst rs = serial_commands args
    else ProvisionResult.error res <> None /\
         map fst rs = firstn (k - 1) (serial_commands args).
Proof.
  cbv zeta. unfold provision_via_serial.
  destruct (setup_error (serial w port)) as [e|].
  - exists 0, []. cbn. repeat split; [lia | discriminate].
  - rewrite serial_body_send_all.
    destruct (send_all_trace (serial w port) (serial_commands args)
                {| cmds := []; resps := [] |} (serial_commands_nodup args))
      as (k & o & st' & Hrun & Hk & Hcmds & Hres); [reflexivity|].
    rewrite Hrun. cbn [cmds resps app map] in *.
    exists k, (resps st'). destruct o as [e|]; cbn.
    + destruct Hres as [_ Hres]. repeat split; [exact Hk | exact Hcmds | discriminate | exact Hres].
    + destruct Hres as [-> Hres]. rewrite firstn_all in Hcmds. rewrite firstn_all.
      repeat split; [lia | exact Hcmds | exact Hres].
Qed.

Lemma concat_snoc sep l x :
  l <> [] -> String.concat sep (l ++ [x]) = String.concat sep l +:+ sep +:+ x.
Proof.
  induction l as [|y l IH]; [contradiction|]. intros _.
  destruct l as [|z l].
  - reflexivity.
  - change (String.concat sep ((y :: z :: l) ++ [x]))
      with (y +:+ sep +:+ String.concat sep ((z :: l) ++ [x])).
    rewrite IH by discriminate.
    change (String.concat sep (y :: z :: l))
      with (y +:+ sep +:+ String.concat sep (z :: l)).
    rewrite !append_assoc. reflexivity.
Qed.

Lemma once_in_nodup (l : list string) x :
  NoDup l -> In x l -> count_occ string_dec l x = 1.
Proof.
  intros Hnd Hin.
  pose proof (proj1 (NoDup_count_occ string_dec l) Hnd x).
  pose proof (proj1 (count_occ_In string_dec l x) Hin). lia.
Qed.

Lemma http_backlog_ends_with_restart args :
  exists front, front <> [] /\ http_backlog args = front ++ ["Restart 1"].
Proof.
  destruct (backlog_and_serial_commands args) as (front & creds & Hh & _ & _).
  exists (front ++ ("TelePeriod " +:+ str_int (teleperiod args)) :: creds).
  split; [destruct front; discriminate|].
  rewrite Hh, <- app_assoc. reflexivity.
Qed.

Lemma serial_commands_end_with_restart args :
  exists front, serial_commands args = front ++ ["Restart 1"].
Proof.
  destruct (backlog_and_serial_commands args) as (front & creds & _ & Hs & _).
  exists (front ++ creds ++ ["TelePeriod " +:+ str_int (teleperiod args)]).
  rewrite Hs, <- !app_assoc. reflexivity.
Qed.

(** X8. The restart directive closes both command sequences and occurs in
    them once: the composite HTTP command ends with it, and a serial run
    that succeeds has sent it last. *)
Theorem restart_is_the_last_directive args :
  (exists front, full_cmd args = "Backlog " +:+ front +:+ "; Restart 1") /\
  last (http_backlog args) "" = "Restart 1" /\
  count_occ string_dec (http_backlog args) "Restart 1" = 1 /\
  (forall w port,
      ProvisionResult.ok (provision_via_serial w port args) = true ->
      last (ProvisionResult.commands_sent (provision_via_serial w port args)) ""
        = "Restart 1" /\
      count_occ string_dec
        (ProvisionResult.commands_sent (provision_via_serial w port args))
        "Restart 1" = 1).
Proof.
  destruct (http_backlog_ends_with_restart args) as (hf & Hne & Hh).
  destruct (serial_commands_end_with_restart args) as (sf & Hs).
  split; [| split; [| split]].
  - exists (String.concat "; " hf). unfold full_cmd.
    rewrite Hh, concat_snoc by exact Hne. reflexivity.
  - rewrite Hh. apply last_last.
  - apply once_in_nodup; [apply http_backlog_nodup|].
    rewrite Hh. apply in_or_app. right; left; reflexivity.
  - intros w port Hok.
    assert (Hsent : ProvisionResult.commands_sent (provision_via_serial w port args)
                    = serial_commands args).
    { revert Hok. unfold provision_via_serial.
      destruct (setup_error (serial w port)); [discriminate|].
      rewrite serial_body_send_all.
      destruct (send_all_trace (serial w port) (serial_commands args)
                  {| cmds := []; resps := [] |} (serial_commands_nodup args))
        as (k & o & st' & Hrun & _ & Hcmds & Hres); [reflexivity|].
      rewrite Hrun. destruct o; [discriminate|]. intros _.
      destruct Hres as [-> _]. cbn in *. rewrite Hcmds. apply firstn_all. }
    rewrite Hsent. split.
    + rewrite Hs. apply last_last.
    + apply once_in_nodup; [apply serial_commands_nodup|].
      rewrite Hs. apply in_or_app. right; left; reflexivity.
Qed.

End ProvisioningMore.

(** ** More on telemetry validation *)

Section TelemetryMore.
Context {rt : Runtime}.

(** The loop returns from inside only on a sample that parses and
    validates, after passing over everything before it. *)
Lemma consume_accepted args evs : forall errs data,
  consume args evs errs = Accepted data ->
  exists pre elapsed raw post,
    evs = pre ++ Poll elapsed (Message raw) :: post /\
    Forall (passed_over args) pre /\
    PrimFloat.ltb elapsed (mqtt_wait_sec args) = true /\
    json_loads raw = Returns data /\
    validate_sensor_data data (sensor_name args) = Returns [].
Proof.
  induction evs as [|ev rest IH]; intros errs data; cbn [consume]; [discriminate|].
  assert (Hcons : forall errs', passed_over args ev ->
            consume args rest errs' = Accepted data ->
            exists pre elapsed raw post,
              ev :: rest = pre ++ Poll elapsed (Message raw) :: post /\
              Forall (passed_over args) pre /\
              PrimFloat.ltb elapsed (mqtt_wait_sec args) = true /\
              json_loads raw = Returns data /\
              validate_sensor_data data (sensor_name args) = Returns []).
  { intros errs' Hev H.
    destruct (IH _ _ H) as (pre & elapsed & raw & post & -> & Hpre & Hrest).
    exists (ev :: pre), elapsed, raw, post.
    split; [reflexivity|]. split; [constructor; assumption | exact Hrest]. }
  destruct ev as [rc rc_text | elapsed q].
  - apply Hcons. exact I.
  - destruct (PrimFloat.ltb elapsed (mqtt_wait_sec args)) eqn:Hin; [| discriminate].
    destruct q as [|raw].
    + apply Hcons. cbn. rewrite Hin. auto.
    + destruct (json_loads raw) as [d|e] eqn:Hj.
      * destruct (validate_sensor_data d (sensor_name args)) as [[|v vs]|e] eqn:Hv.
        -- intros [= <-]. exists [], elapsed, raw, rest. auto.
        -- apply Hcons. cbn. rewrite Hin. split; [reflexivity|].
           right. exists d, (v :: vs). rewrite Hj. repeat split; [exact Hv | discriminate].
        -- discriminate.
      * destruct (exn_kind e) eqn:Hk; try discriminate.
        apply Hcons. cbn. rewrite Hin. split; [reflexivity|].
        left. exists e. rewrite Hj. auto.
Qed.

(** X9. A result with success true is only ever produced by a sample: the
    broker connection succeeded and some message, polled within the budget
    after events the loop passed over, parsed and passed the validator;
    first_payload is the parse of that message. *)
Theorem success_comes_from_an_accepted_sample session args topic :
  MqttValidationResult.ok (validate_mqtt_sensor session args topic) = true ->
  connect_error session = None /\
  exists pre elapsed raw data post,
    events session = pre ++ Poll elapsed (Message raw) :: post /\
    Forall (passed_over args) pre /\
    PrimFloat.ltb elapsed (mqtt_wait_sec args) = true /\
    json_loads raw = Returns data /\
    validate_sensor_data data (sensor_name args) = Returns [] /\
    MqttValidationResult.first_payload (validate_mqtt_sensor session args topic)
      = Some data.
Proof.
  unfold validate_mqtt_sensor.
  destruct (connect_error session) as [e|]; [discriminate|].
  destruct (consume args (events session) []) as [data|errs] eqn:Hc; [| discriminate].
  intros _. split; [reflexivity|].
  destruct (consume_accepted _ _ _ _ Hc) as (pre & elapsed & raw & post & H1 & H2 & H3 & H4 & H5).
  exists pre, elapsed, raw, data, post. auto 10.
Qed.

Lemma set_to_list_single (Hset : set_semantics rt) x : set_to_list [x] = [x].
Proof.
  destruct (Hset [x]) as [Hnd Hin].
  destruct (set_to_list [x]) as [|y l].
  - exfalso. apply (proj2 (Hin x)). left; reflexivity.
  - assert (y = x) as ->.
    { destruct (proj1 (Hin y)) as [H|[]]; [left; reflexivity | auto]. }
    destruct l as [|z l]; [reflexivity|]. exfalso.
    inversion Hnd as [|? ? Hnot _]; subst. apply Hnot.
    destruct (proj1 (Hin z)) as [H|[]]; [right; left; reflexivity|].
    subst. left; reflexivity.
Qed.

Lemma no_telemetry_errors (Hset : set_semantics rt) sub errs elapsed x :
  In x errs ->
  forall y, In y (MqttValidationResult.errors (no_telemetry sub errs elapsed))
            <-> In y errs.
Proof.
  intros Hx y. unfold no_telemetry; cbn.
  destruct (Hset errs) as [_ Hin].
  destruct (set_to_list errs) as [|z l] eqn:E.
  - exfalso. apply (proj2 (Hin x)). exact Hx.
  - apply Hin.
Qed.

(** X10. When connecting to the broker raises, the consume loop does not
    run: the result is a failure whose only error is the library error
    with the exception text, whatever messages the session would have
    delivered. *)
Theorem connect_failure_skips_the_loop (Hset : set_semantics rt)
    session args topic e :
  connect_error session = Some e ->
  validate_mqtt_sensor session args topic
  = MqttValidationResult.Make false 0 ("tele/" +:+ str topic +:+ "/SENSOR")
      ["MQTT Library Error: " +:+ e] None (clock_at_return session).
Proof.
  intros H. unfold validate_mqtt_sensor, no_telemetry. rewrite H.
  rewrite (set_to_list_single Hset). reflexivity.
Qed.

(** X11. A sample on which the validator raises ends the run: the result is
    a failure that reports the exception as a library error next to the
    errors accumulated before, and no later message is inspected, valid
    or not. *)
Theorem validator_exception_ends_the_run (Hset : set_semantics rt)
    session args topic pre elapsed raw data e post :
  connect_error session = None ->
  events session = pre ++ Poll elapsed (Message raw) :: post ->
  Forall (passed_over args) pre ->
  PrimFloat.ltb elapsed (mqtt_wait_sec args) = true ->
  json_loads raw = Returns data ->
  validate_sensor_data data (sensor_name args) = Raises e ->
  let r := validate_mqtt_sensor session args topic in
  MqttValidationResult.ok r = false /\
  MqttValidationResult.first_payload r = None /\
  forall x, In x (MqttValidationResult.errors r) <->
            In x (accumulated args pre) \/ x = "MQTT Library Error: " +:+ exn_text e.
Proof.
  intros Hconn Hev Hpre Hin Hjson Hraise. cbv zeta. unfold validate_mqtt_sensor.
  rewrite Hconn, Hev, consume_passed_over by assumption.
  cbn [consume app]. rewrite Hin, Hjson, Hraise.
  split; [reflexivity|]. split; [reflexivity|]. intros x.
  rewrite (no_telemetry_errors Hset _ _ _ ("MQTT Library Error: " +:+ exn_text e))
    by (apply in_or_app; right; left; reflexivity).
  rewrite in_app_iff. cbn. intuition.
Qed.

Lemma consume_cut args pre elapsed q post : forall errs,
  PrimFloat.ltb elapsed (mqtt_wait_sec args) = false ->
  consume args (pre ++ Poll elapsed q :: post) errs = consume args pre errs.
Proof.
  intros errs Hout. revert errs.
  induction pre as [|ev pre IH]; intros errs; cbn [app consume].
  - rewrite Hout. reflexivity.
  - destruct ev as [rc rc_text | t p]; [apply IH|].
    destruct (PrimFloat.ltb t (mqtt_wait_sec args)); [| reflexivity].
    destruct p as [|raw]; [apply IH|].
    destruct (json_loads raw) as [d|e].
    + destruct (validate_sensor_data d (sensor_name args)) as [[|v vs]|e];
        [reflexivity | apply IH | reflexivity].
    + destruct (exn_kind e); try reflexivity. apply IH.
Qed.

(** X12. Once a poll reads a clock that is not below the budget, nothing
    more is looked at: the result is the one of the run cut before that
    poll, whatever that poll and the later ones would have delivered. *)
Theorem nothing_is_read_after_the_budget session args topic pre elapsed q post :
  events session = pre ++ Poll elapsed q :: post ->
  PrimFloat.ltb elapsed (mqtt_wait_sec args) = false ->
  validate_mqtt_sensor session args topic
  = validate_mqtt_sensor
      {| connect_error := connect_error session;
         events := pre;
         clock_at_return := clock_at_return session |} args topic.
Proof.
  intros Hev Hout. unfold validate_mqtt_sensor. cbn [connect_error events clock_at_return].
  rewrite Hev, (consume_cut args pre elapsed q post [] Hout). reflexivity.
Qed.

End TelemetryMore.

(** ** More on the orchestrator *)

Section OrchestratorMore.
Context {rt : Runtime}.

Lemma find_port_step w pt rest :
  (answers_status w pt /\ find_port w (pt :: rest) = Some pt) \/
  (~ answers_status w pt /\ find_port w (pt :: rest) = find_port w rest).
Proof.
  unfold answers_status. cbn [find_port].
  destruct (serial_probe w pt) as [a|e] eqn:E.
  - destruct (str_contains "Status" a) eqn:Ha.
    + left. split; [eauto | reflexivity].
    + right. split; [| reflexivity]. intros (a' & [= <-] & H). congruence.
  - right. split; [| reflexivity]. intros (a' & H & _). discriminate.
Qed.

(** X13. The serial locator returns the first port, in enumeration order,
    that answers the status probe with the identity marker; ports that
    raise or answer without it are skipped, and the result is none exactly
    when no port answers. *)
Theorem find_port_first_responder w ports :
  (forall pt, find_port w ports = Some pt <->
              exists pre post, ports = pre ++ pt :: post /\
                               answers_status w pt /\
                               Forall (fun p => ~ answers_status w p) pre) /\
  (find_port w ports = None <-> Forall (fun p => ~ answers_status w p) ports).
Proof.
  induction ports as [|p rest [IHsome IHnone]].
  - split.
    + intros pt. split; [discriminate|].
      intros (pre & post & H & _). destruct pre; discriminate.
    + split; [constructor | reflexivity].
  - destruct (find_port_step w p rest) as [[Hp ->] | [Hp ->]].
    + split.
      * intros pt. split.
        -- intros [= <-]. exists [], rest. auto.
        -- intros (pre & post & H & Hpt & Hpre).
           destruct pre as [|q pre]; [injection H as -> _; reflexivity|].
           injection H as <- _. inversion Hpre; subst. contradiction.
      * split; [discriminate|]. inversion 1; subst. contradiction.
    + split.
      * intros pt. rewrite IHsome. split.
        -- intros (pre & post & -> & Hpt & Hpre).
           exists (p :: pre), post. auto.
        -- intros (pre & post & H & Hpt & Hpre).
           destruct pre as [|q pre].
           ++ injection H as -> _. contradiction.
           ++ injection H as <- ->. inversion Hpre; subst.
              exists pre, post. auto.
      * rewrite IHnone. split; [constructor; assumption | now inversion 1].
Qed.




Lemma validate_all_fst w args devices : forall acc,
  fst (validate_all w args devices acc) = map (refresh_topic w) devices.
Proof.
  induction devices as [|d rest IH]; intros acc; cbn [validate_all map].
  - reflexivity.
  - match goal with
    | |- context [validate_all w args rest ?m] =>
        specialize (IH m); destruct (validate_all w args rest m) as [rest' final]
    end.
    cbn [fst] in *. rewrite IH. reflexivity.
Qed.

Lemma validate_all_snd_cons w args d rest acc :
  snd (validate_all w args (d :: rest) acc)
  = snd (validate_all w args rest
           (if truthy (DeviceInfo.topic (refresh_topic w d)) then
              dict_set (DeviceInfo.ip (refresh_topic w d))
                (validate_mqtt_sensor
                   (mqtt_session w (DeviceInfo.ip (refresh_topic w d))) args
                   (DeviceInfo.topic (refresh_topic w d))) acc
            else acc)).
Proof.
  cbn [validate_all]. destruct (validate_all w args rest _). reflexivity.
Qed.

Lemma refresh_topic_keeps w d :
  DeviceInfo.ip (refresh_topic w d) = DeviceInfo.ip d /\
  DeviceInfo.port (refresh_topic w d) = DeviceInfo.port d /\
  DeviceInfo.model (refresh_topic w d) = DeviceInfo.model d /\
  DeviceInfo.discovered_by (refresh_topic w d) = DeviceInfo.discovered_by d /\
  (truthy (DeviceInfo.topic d) = true ->
   eq_str (DeviceInfo.topic d) "unknown" = false -> refresh_topic w d = d).
Proof.
  unfold refresh_topic.
  destruct (truthy (DeviceInfo.topic d)), (eq_str (DeviceInfo.topic d) "unknown");
    cbn [negb orb]; try (repeat split; congruence);
    destruct (http w _) as [e | status [r | e]]; try (repeat split; congruence);
    destruct (bind _ _); repeat split; congruence.
Qed.

(** X15. The validation phase keeps the device list: the same number of
    records in the same order, each with its address, port, model and
    provenance tag; only the topic can change, and a record whose topic is
    set and is not [unknown] is left exactly as it was. *)
Theorem validation_keeps_the_records w args devices acc :
  Forall2 (fun d d' =>
             DeviceInfo.ip d' = DeviceInfo.ip d /\
             DeviceInfo.port d' = DeviceInfo.port d /\
             DeviceInfo.model d' = DeviceInfo.model d /\
             DeviceInfo.discovered_by d' = DeviceInfo.discovered_by d /\
             (truthy (DeviceInfo.topic d) = true ->
              eq_str (DeviceInfo.topic d) "unknown" = false -> d' = d))
          devices (fst (validate_all w args devices acc)).
Proof.
  rewrite validate_all_fst.
  induction devices as [|d rest IH]; cbn [map]; constructor;
    [apply refresh_topic_keeps | exact IH].
Qed.

Lemma validate_all_results w args devices : forall acc,
  NoDup (map DeviceInfo.ip devices) ->
  (forall d, In d devices -> dict_get (DeviceInfo.ip d) acc = None) ->
  (forall d, In d devices ->
     dict_get (DeviceInfo.ip d) (snd (validate_all w args devices acc))
     = if truthy (DeviceInfo.topic (refresh_topic w d))
       then Some (validate_mqtt_sensor (mqtt_session w (DeviceInfo.ip d)) args
                    (DeviceInfo.topic (refresh_topic w d)))
       else None) /\
  (forall k, ~ In k (map DeviceInfo.ip devices) ->
     dict_get k (snd (validate_all w args devices acc)) = dict_get k acc).
Proof.
  induction devices as [|d rest IH]; intros acc Hnd Hfresh.
  - split; [intros d [] | reflexivity].
  - cbn [map] in Hnd. inversion Hnd as [|? ? Hnot Hnd']; subst.
    rewrite validate_all_snd_cons.
    destruct (refresh_topic_keeps w d) as (Hip & _). rewrite Hip.
    set (acc' := if truthy (DeviceInfo.topic (refresh_topic w d)) then _ else acc).
    assert (Hacc' : forall k, k <> DeviceInfo.ip d -> dict_get k acc' = dict_get k acc).
    { intros k Hk. subst acc'. destruct (truthy _); [| reflexivity].
      rewrite dict_get_set. destruct (String.eqb_spec k (DeviceInfo.ip d)); congruence. }
    destruct (IH acc' Hnd') as [IHin IHout].
    { intros d0 Hd0. rewrite Hacc'.
      - apply Hfresh. right; exact Hd0.
      - intros E. apply Hnot. rewrite <- E. apply in_map. exact Hd0. }
    split.
    + intros d0 [<- | Hd0]; [| apply IHin; exact Hd0].
      rewrite IHout by exact Hnot. subst acc'.
      destruct (truthy _).
      * rewrite dict_get_set, String.eqb_refl. reflexivity.
      * apply Hfresh. left; reflexivity.
    + intros k Hk. cbn [map In] in Hk.
      rewrite IHout by tauto. apply Hacc'. intros ->. tauto.
Qed.

(** X16. When the addresses of the devices are pairwise distinct, the
    validation phase records, under each address, the result of validating
    that device on its refreshed topic, and records nothing for a device
    whose topic is still unset and for any address that is not in the
    list. *)
Theorem validation_results_by_address w args devices :
  NoDup (map DeviceInfo.ip devices) ->
  let results := snd (validate_all w args devices []) in
  (forall d, In d devices ->
     dict_get (DeviceInfo.ip d) results
     = if truthy (DeviceInfo.topic (refresh_topic w d))
       then Some (validate_mqtt_sensor (mqtt_session w (DeviceInfo.ip d)) args
                    (DeviceInfo.topic (refresh_topic w d)))
       else None) /\
  (forall k, ~ In k (map DeviceInfo.ip devices) -> dict_get k results = None).
Proof.
  intros Hnd results. subst results.
  destruct (validate_all_results w args devices [] Hnd) as [H1 H2];
    [reflexivity|]. split; [exact H1|]. intros k Hk. rewrite H2 by exact Hk. reflexivity.
Qed.

Lemma dict_set_length (A : Type) k (v : A) d :
  length d <= length (dict_set k v d) <= S (length d).
Proof.
  induction d as [|[k0 v0] d IH]; cbn; [lia|].
  destruct (String.eqb k k0); cbn; lia.
Qed.

Lemma validate_all_snd_length w args devices : forall acc,
  length (snd (validate_all w args devices acc)) <= length acc + length devices.
Proof.
  induction devices as [|d rest IH]; intros acc.
  - cbn. lia.
  - rewrite validate_all_snd_cons. cbn [length].
    match goal with |- context [validate_all w args rest ?m] => specialize (IH m) end.
    destruct (truthy _); [| lia].
    pose proof (dict_set_length _ (DeviceInfo.ip (refresh_topic w d))
                  (validate_mqtt_sensor
                     (mqtt_session w (DeviceInfo.ip (refresh_topic w d))) args
                     (DeviceInfo.topic (refresh_topic w d))) acc).
    lia.
Qed.

Lemma provision_all_length w args devices : forall acc,
  length (provision_all w args devices acc) <= length acc + length devices.
Proof.
  induction devices as [|d rest IH]; intros acc; cbn [provision_all length].
  - lia.
  - specialize (IH (dict_set (DeviceInfo.ip d) (provision_via_http w d args) acc)).
    pose proof (dict_set_length _ (DeviceInfo.ip d) (provision_via_http w d args) acc).
    lia.
Qed.

Lemma provision_and_discover_logs w args devices prov :
  provision_and_discover w args = Returns (devices, prov) ->
  (provision_via args = "serial" /\
   (prov = [] \/
    exists pt, find_port w (comports w) = Some pt /\
               prov = [(pt, provision_via_serial w pt args)])) \/
  (provision_via args = "http" /\ prov = provision_all w args devices []) \/
  (provision_via args <> "serial" /\ provision_via args <> "http" /\ prov = []).
Proof.
  unfold provision_and_discover.
  destruct (String.eqb_spec (provision_via args) "serial") as [Hs|Hs].
  - intros H. left. split; [exact Hs|].
    destruct (find_port w (comports w)) as [pt|]; cbn [truthy_str str_opt] in H.
    + destruct (negb (String.eqb pt "")).
      * right. exists pt. split; [reflexivity|]. cbn [dict_set] in H.
        destruct (ProvisionResult.ok _ && truthy_str (cidr args)).
        -- destruct (scan_network w _ 80 200); cbn [bind] in H; congruence.
        -- congruence.
      * left. congruence.
    + left. congruence.
  - intros H. right.
    destruct (String.eqb_spec (provision_via args) "http") as [Hh|Hh]; cbn [andb] in H.
    + left. split; [exact Hh|].
      destruct (if truthy_str (target_ip args) then _ else _) as [ds|];
        cbn [bind] in H; [| discriminate].
      destruct ds as [|d ds]; injection H as <- <-; reflexivity.
    + right. repeat split; try assumption.
      destruct (if truthy_str (target_ip args) then _ else _) as [ds|];
        cbn [bind] in H; congruence.
Qed.

Lemma main_parts w args report :
  main w args = Returns report ->
  exists devices prov,
    provision_and_discover w args = Returns (devices, prov) /\
    report = final_report w args (fst (validate_all w args devices []))
               prov (snd (validate_all w args devices [])).
Proof.
  unfold main.
  destruct (provision_and_discover w args) as [[devices prov]|]; cbn [bind];
    [| discriminate].
  destruct (validate_all w args devices []) as [devices' results] eqn:Hv.
  intros [= <-]. exists devices, prov. rewrite Hv. split; reflexivity.
Qed.

(** X17. The summary of a report agrees with its lists: the device and
    provisioning counts are their lengths, the successful validations are
    at most the validations recorded, which are at most the devices
    found, and there are at most as many provisioning results as devices
    unless the serial strategy ran, which adds exactly one. *)
Theorem summary_counts w args report :
  main w args = Returns report ->
  devices_found (summary report) = Z.of_nat (length (discovered_devices report)) /\
  provisioning_count (summary report) = Z.of_nat (length (provisioning_logs report)) /\
  (0 <= successful_validations (summary report)
     <= Z.of_nat (length (mqtt_validation report)))%Z /\
  length (mqtt_validation report) <= length (discovered_devices report) /\
  (provision_via args <> "serial" ->
   length (provisioning_logs report) <= length (discovered_devices report)) /\
  (provision_via args = "serial" -> length (provisioning_logs report) <= 1).
Proof.
  intros Hm. destruct (main_parts w args report Hm) as (devices & prov & Hp & ->).
  cbn [summary final_report devices_found provisioning_count successful_validations
       discovered_devices provisioning_logs mqtt_validation].
  rewrite validate_all_fst, length_map.
  pose proof (validate_all_snd_length w args devices []) as Hlen. cbn [length] in Hlen.
  split; [reflexivity|]. split; [reflexivity|]. split; [| split; [exact Hlen|]].
  - split; [lia|]. apply Nat2Z.inj_le, filter_length_le.
  - destruct (provision_and_discover_logs w args devices prov Hp)
      as [[Hs Hprov] | [[Hh ->] | (Hs & Hh & ->)]].
    + split; [congruence|]. intros _.
      destruct Hprov as [-> | (pt & _ & ->)]; cbn; lia.
    + split; [| congruence]. intros _.
      pose proof (provision_all_length w args devices []). cbn [length] in *. lia.
    + split; [cbn; lia | congruence].
Qed.

(** X18. Without a provisioning transport (any value of the option other
    than [http] and [serial]) a run provisions nothing: the report has no
    provisioning result, and its devices are still discovered and
    validated. *)
Theorem no_transport_no_provisioning w args report :
  provision_via args <> "http" ->
  provision_via args <> "serial" ->
  main w args = Returns report ->
  provisioning_logs report = [] /\
  provisioning_count (summary report) = 0%Z /\
  (truthy_str (target_ip args) = true ->
   discovered_devices report =
     [refresh_topic w (DeviceInfo.Make (str_opt (target_ip args)) 80 VNone VNone "manual")]).
Proof.
  intros Hh Hs Hm. destruct (main_parts w args report Hm) as (devices & prov & Hp & ->).
  cbn [summary final_report provisioning_count discovered_devices provisioning_logs].
  destruct (provision_and_discover_logs w args devices prov Hp)
    as [[Hs' _] | [[Hh' _] | (_ & _ & ->)]]; try contradiction.
  split; [reflexivity|]. split; [reflexivity|]. intros Ht.
  rewrite validate_all_fst. revert Hp. unfold provision_and_discover.
  destruct (String.eqb_spec (provision_via args) "serial"); [contradiction|].
  rewrite Ht. cbn [bind].
  destruct (String.eqb_spec (provision_via args) "http"); [contradiction|].
  cbn [andb]. intros [= <-]. reflexivity.
Qed.

Lemma provision_all_other w args devices : forall acc k,
  ~ In k (map DeviceInfo.ip devices) ->
  dict_get k (provision_all w args devices acc) = dict_get k acc.
Proof.
  induction devices as [|d rest IH]; intros acc k Hk; cbn [provision_all].
  - reflexivity.
  - cbn [map In] in Hk. rewrite IH by tauto. rewrite dict_get_set.
    destruct (String.eqb_spec k (DeviceInfo.ip d)); [subst; tauto | reflexivity].
Qed.

Lemma provision_all_covers w args devices : forall acc d,
  In d devices ->
  exists d0, In d0 devices /\ DeviceInfo.ip d0 = DeviceInfo.ip d /\
             dict_get (DeviceInfo.ip d) (provision_all w args devices acc)
             = Some (provision_via_http w d0 args).
Proof.
  induction devices as [|d1 rest IH]; intros acc d Hd; [destruct Hd|].
  cbn [provision_all].
  destruct (in_dec string_dec (DeviceInfo.ip d) (map DeviceInfo.ip rest)) as [Hin|Hout].
  - apply in_map_iff in Hin as (d2 & Hip & Hd2).
    destruct (IH (dict_set (DeviceInfo.ip d1) (provision_via_http w d1 args) acc) d2 Hd2)
      as (d0 & Hd0 & Hip0 & Hget).
    exists d0. split; [right; exact Hd0|]. split; [congruence|].
    rewrite <- Hip. exact Hget.
  - destruct Hd as [<- | Hd]; [| exfalso; apply Hout, in_map; exact Hd].
    exists d1. split; [left; reflexivity|]. split; [reflexivity|].
    rewrite provision_all_other by exact Hout.
    rewrite dict_get_set, String.eqb_refl. reflexivity.
Qed.

(** X19. With the HTTP transport every device of the report has a
    provisioning result under its address, and that result is what the
    HTTP strategy returned for a device at that address. *)
Theorem http_provisions_every_device w args report :
  provision_via args = "http" ->
  main w args = Returns report ->
  forall d, In d (discovered_devices report) ->
    exists d0, DeviceInfo.ip d0 = DeviceInfo.ip d /\
               dict_get (DeviceInfo.ip d) (provisioning_logs report)
               = Some (provision_via_http w d0 args).
Proof.
  intros Hh Hm d Hd. destruct (main_parts w args report Hm) as (devices & prov & Hp & ->).
  cbn [final_report discovered_devices provisioning_logs] in *.
  destruct (provision_and_discover_logs w args devices prov Hp)
    as [[Hs _] | [[_ ->] | (_ & Hn & _)]]; [congruence | | contradiction].
  rewrite validate_all_fst in Hd. apply in_map_iff in Hd as (d1 & <- & Hd1).
  destruct (refresh_topic_keeps w d1) as (Hip & _). rewrite Hip.
  destruct (provision_all_covers w args devices [] d1 Hd1) as (d0 & _ & Hip0 & Hget).
  exists d0. auto.
Qed.

(** X20. With the serial transport a manual target address is not used:
    every device of the report comes from the network sweep.  When no
    serial port answers the status probe, nothing is provisioned,
    discovered or validated; when one does, the report holds exactly one
    provisioning result, under the name of that port, and devices are
    looked for only if that result is a success. *)
Theorem serial_run_shape w args report :
  provision_via args = "serial" ->
  main w args = Returns report ->
  Forall (fun d => DeviceInfo.discovered_by d = "http-probe")
         (discovered_devices report) /\
  match find_port w (comports w) with
  | None =>
      provisioning_logs report = [] /\ discovered_devices report = [] /\
      mqtt_validation report = []
  | Some pt =>
      pt <> "" ->
      provisioning_logs report = [(pt, provision_via_serial w pt args)] /\
      (ProvisionResult.ok (provision_via_serial w pt args) = false ->
       discovered_devices report = [] /\ mqtt_validation report = [])
  end.
Proof.
  intros Hs Hm. destruct (main_parts w args report Hm) as (devices & prov & Hp & ->).
  cbn [final_report discovered_devices provisioning_logs mqtt_validation].
  rewrite validate_all_fst.
  revert Hp. unfold provision_and_discover. rewrite Hs, String.eqb_refl.
  destruct (find_port w (comports w)) as [pt|]; cbn [truthy_str str_opt].
  - destruct (String.eqb_spec pt "") as [->|Hne]; cbn [negb].
    + intros [= <- <-]. split; [constructor | contradiction].
    + cbn [dict_set].
      destruct (ProvisionResult.ok (provision_via_serial w pt args)); cbn [andb].
      * destruct (truthy_str (cidr args)).
        -- destruct (scan_network w _ 80 200) as [ds|] eqn:Hscan; cbn [bind];
             [| discriminate].
           intros [= <- <-]. split.
           ++ apply scan_network_tags in Hscan.
              rewrite Forall_forall in *. intros d' Hd'.
              apply in_map_iff in Hd' as (d & <- & Hd).
              rewrite refresh_topic_tag. apply Hscan; exact Hd.
           ++ intros _. split; [reflexivity | discriminate].
        -- intros [= <- <-]. split; [constructor|].
           intros _. split; [reflexivity | discriminate].
      * intros [= <- <-]. split; [constructor|].
        intros _. split; [reflexivity|]. intros _. split; reflexivity.
  - intros [= <- <-]. split; [constructor|]. repeat split; reflexivity.
Qed.

Lemma validate_mqtt_sensor_topic session args topic :
  MqttValidationResult.topic (validate_mqtt_sensor session args topic)
  = "tele/" +:+ str topic +:+ "/SENSOR".
Proof.
  unfold validate_mqtt_sensor, no_telemetry.
  destruct (connect_error session); [reflexivity|].
  destruct (consume _ _ _); reflexivity.
Qed.

(** X21. A device found by the sweep without a topic carries the topic
    [unknown]; when the follow-up identity query does not resolve it, the
    device is not skipped: it is validated on the telemetry topic
    [tele/unknown/SENSOR], and that result is recorded under its address. *)
Theorem unknown_topic_is_still_validated w args devices d :
  NoDup (map DeviceInfo.ip devices) ->
  In d devices ->
  DeviceInfo.topic d = VStr "unknown" ->
  refresh_topic w d = d ->
  exists v,
    dict_get (DeviceInfo.ip d) (snd (validate_all w args devices [])) = Some v /\
    v = validate_mqtt_sensor (mqtt_session w (DeviceInfo.ip d)) args (VStr "unknown") /\
    MqttValidationResult.topic v = "tele/unknown/SENSOR".
Proof.
  intros Hnd Hd Ht Hkeep.
  destruct (validate_all_results w args devices [] Hnd) as [H _]; [reflexivity|].
  specialize (H d Hd). rewrite Hkeep, Ht in H. cbn [truthy String.eqb negb] in H.
  eexists. split; [exact H|]. split; [reflexivity|].
  apply validate_mqtt_sensor_topic.
Qed.

(** X22. A single manual target without a provisioning transport, whose
    topic the identity query does not resolve: the report lists exactly
    that record, tagged [manual], with no provisioning result and no
    validation result, since a device without a topic is skipped. *)
Theorem manual_target_without_topic_is_skipped w args :
  provision_via args <> "http" ->
  provision_via args <> "serial" ->
  truthy_str (target_ip args) = true ->
  refresh_topic w (DeviceInfo.Make (str_opt (target_ip args)) 80 VNone VNone "manual")
  = DeviceInfo.Make (str_opt (target_ip args)) 80 VNone VNone "manual" ->
  main w args
  = Returns (final_report w args
               [DeviceInfo.Make (str_opt (target_ip args)) 80 VNone VNone "manual"]
               [] []).
Proof.
  intros Hh Hs Ht Hkeep. unfold main, provision_and_discover.
  destruct (String.eqb_spec (provision_via args) "serial"); [contradiction|].
  destruct (String.eqb_spec (provision_via args) "http"); [contradiction|].
  rewrite Ht. cbn [bind andb validate_all]. rewrite Hkeep. reflexivity.
Qed.

End OrchestratorMore.

(** ** The hypotheses above at work *)

(** A block with an integer Temperature of 999. *)
Lemma validator_returns_on_object_samples_witness :
  exists errs,
    @validate_sensor_data Sample.runtime Sample.payload_hot "CustomBME280"
    = Returns errs /\ length errs <= 4.
Proof.
  apply (@validator_returns_on_object_samples Sample.runtime
           [("Time", VStr "2026-01-01T00:00:01");
            ("CustomBME280", Sample.block_hot); ("TempUnit", VStr "C")]
           "CustomBME280"
           [("Temperature", VInt 999); ("Humidity", VFloat 45.0);
            ("Pressure", VFloat 1013.0)]).
  - reflexivity.
  - intros key z _ H. cbn in H.
    repeat match type of H with
           | (if ?b then _ else _) = _ => destruct b
           end; try discriminate.
    injection H as <-. eexists. reflexivity.
Defined.

(** A Temperature of ten to the power 400. *)
Lemma validator_raise_cases_witness :
  exn_kind (Exn OverflowError "int too large to convert to float") = OverflowError /\
  exists d block key z,
    Scenario.payload_huge = VDict d /\
    dict_get "CustomBME280" d = Some (VDict block) /\
    In key (map fst limits) /\ dict_get key block = Some (VInt z) /\
    float_of_int z = Raises (Exn OverflowError "int too large to convert to float").
Proof.
  destruct (@validator_raise_cases Sample.runtime Scenario.payload_huge "CustomBME280"
              (Exn OverflowError "int too large to convert to float") eq_refl)
    as [[H _] | [[H _] | H]]; [discriminate H | discriminate H | exact H].
Defined.

(** The sample message and the bare sensor block give the same verdict. *)
Lemma validator_reads_only_the_three_quantities_witness :
  @validate_sensor_data Sample.runtime Sample.payload_ok "CustomBME280"
  = @validate_sensor_data Sample.runtime
      (sample "CustomBME280" 22.5 45.0 1013.0) "CustomBME280".
Proof.
  apply (@validator_reads_only_the_three_quantities Sample.runtime
           [("Time", VStr "2026-01-01T00:00:21");
            ("CustomBME280", Sample.block_ok); ("TempUnit", VStr "C")]
           [("CustomBME280", Sample.block_ok)] "CustomBME280"
           [("Temperature", VFloat 22.5); ("Humidity", VFloat 45.0);
            ("Pressure", VFloat 1013.0)]
           [("Temperature", VFloat 22.5); ("Humidity", VFloat 45.0);
            ("Pressure", VFloat 1013.0)]);
    reflexivity.
Defined.

(** An empty sensor block. *)
Lemma absent_quantities_are_reported_witness :
  @validate_sensor_data Sample.runtime (VDict [("CustomBME280", VDict [])])
    "CustomBME280"
  = Returns ["Field Temperature is missing"; "Field Humidity is missing";
             "Field Pressure is missing"].
Proof.
  apply (@absent_quantities_are_reported Sample.runtime
           [("CustomBME280", VDict [])] "CustomBME280" []).
  - reflexivity.
  - intros key _. left. reflexivity.
Defined.

(** A sweep of two addresses that both answer. *)
Lemma scan_network_one_record_per_address_witness :
  map DeviceInfo.ip
      [identity_record "192.168.1.1" 80 []; identity_record "192.168.1.2" 80 []]
  = filter (fun ip =>
              match _probe_ip
                      (http (Sample.world Sample.reply_status_without_topic
                               Sample.line_ok)) ip 80 with
              | Some _ => true
              | None => false
              end) ["192.168.1.1"; "192.168.1.2"].
Proof.
  apply (scan_network_one_record_per_address
           (Sample.world Sample.reply_status_without_topic Sample.line_ok)
           "192.168.1.0/30" 80%Z 200%Z ["192.168.1.1"; "192.168.1.2"]
           [identity_record "192.168.1.1" 80 []; identity_record "192.168.1.2" 80 []]);
    reflexivity.
Defined.

(** The run that accepts its third sample. *)
Lemma success_comes_from_an_accepted_sample_witness :
  connect_error Sample.session_third_valid = None /\
  exists pre elapsed raw data post,
    events Sample.session_third_valid = pre ++ Poll elapsed (Message raw) :: post /\
    Forall (@passed_over Sample.runtime (Sample.args "none")) pre /\
    PrimFloat.ltb elapsed (mqtt_wait_sec (Sample.args "none")) = true /\
    @json_loads Sample.runtime raw = Returns data /\
    @validate_sensor_data Sample.runtime data (sensor_name (Sample.args "none"))
    = Returns [] /\
    MqttValidationResult.first_payload
      (@validate_mqtt_sensor Sample.runtime Sample.session_third_valid
         (Sample.args "none") (VStr "tasmota_1A2B3C")) = Some data.
Proof.
  apply (@success_comes_from_an_accepted_sample Sample.runtime
           Sample.session_third_valid (Sample.args "none") (VStr "tasmota_1A2B3C")).
  reflexivity.
Defined.

(** A refused connection with a valid message pending. *)
Lemma connect_failure_skips_the_loop_witness :
  @validate_mqtt_sensor Sample.runtime Scenario.session_refused
    (Sample.args "none") (VStr "tasmota_1A2B3C")
  = MqttValidationResult.Make false 0 "tele/tasmota_1A2B3C/SENSOR"
      ["MQTT Library Error: [Errno 111] Connection refused"] None 0.1%float.
Proof.
  apply (@connect_failure_skips_the_loop Sample.runtime sample_set_semantics
           Scenario.session_refused (Sample.args "none") (VStr "tasmota_1A2B3C")
           "[Errno 111] Connection refused").
  reflexivity.
Defined.

(** The sensor name [Time] points at a string of the message, on which the
    validator raises; the valid sample that follows is not looked at. *)
Lemma validator_exception_ends_the_run_witness :
  let r := @validate_mqtt_sensor Sample.runtime Sample.session_third_valid
             (Scenario.args_for_sensor "Time") (VStr "tasmota_1A2B3C") in
  MqttValidationResult.ok r = false /\
  MqttValidationResult.first_payload r = None /\
  forall x, In x (MqttValidationResult.errors r) <->
            In x (@accumulated Sample.runtime (Scenario.args_for_sensor "Time")
                    [ConnAck 0 "Success"]) \/
            x = "MQTT Library Error: 'str' object has no attribute 'get'".
Proof.
  apply (@validator_exception_ends_the_run Sample.runtime sample_set_semantics
           Sample.session_third_valid (Scenario.args_for_sensor "Time")
           (VStr "tasmota_1A2B3C") [ConnAck 0 "Success"] 1.0%float Sample.raw_hot
           Sample.payload_hot
           (Exn AttributeError "'str' object has no attribute 'get'")
           [Poll 11.0%float (Message Sample.raw_hot);
            Poll 21.0%float (Message Sample.raw_ok);
            Poll 31.0%float (Message Sample.raw_ok)]).
  - reflexivity.
  - reflexivity.
  - apply Forall_cons; [exact I | apply Forall_nil].
  - reflexivity.
  - reflexivity.
  - reflexivity.
Defined.

(** The last poll of the run that never accepts reads 45.5 s of 45. *)
Lemma nothing_is_read_after_the_budget_witness :
  @validate_mqtt_sensor Sample.runtime Sample.session_never_valid
    (Sample.args "none") (VStr "tasmota_1A2B3C")
  = @validate_mqtt_sensor Sample.runtime
      {| connect_error := None;
         events := [ ConnAck 0 "Success";
                     Poll 1.0%float (Message Sample.raw_hot);
                     Poll 11.0%float (Message "not json");
                     Poll 21.0%float (Message Sample.raw_hot);
                     Poll 31.0%float QueueEmpty ];
         clock_at_return := 45.5%float |}
      (Sample.args "none") (VStr "tasmota_1A2B3C").
Proof.
  apply (@nothing_is_read_after_the_budget Sample.runtime Sample.session_never_valid
           (Sample.args "none") (VStr "tasmota_1A2B3C")
           [ ConnAck 0 "Success";
             Poll 1.0%float (Message Sample.raw_hot);
             Poll 11.0%float (Message "not json");
             Poll 21.0%float (Message Sample.raw_hot);
             Poll 31.0%float QueueEmpty ]
           45.5%float QueueEmpty []);
    reflexivity.
Defined.

(** One device that answers the identity query with its topic. *)
Lemma validation_results_by_address_witness :
  dict_get "192.168.1.50"
    (snd (@validate_all Sample.runtime
            (Sample.world Scenario.reply_identity Sample.line_ok)
            (Sample.args "none") [Sample.device] []))
  = Some (@validate_mqtt_sensor Sample.runtime Sample.idle_session
            (Sample.args "none") (VStr "tasmota_1A2B3C")).
Proof.
  apply (proj1 (@validation_results_by_address Sample.runtime
                  (Sample.world Scenario.reply_identity Sample.line_ok)
                  (Sample.args "none") [Sample.device]
                  (NoDup_cons _ (fun H : In _ [] => H) (NoDup_nil _)))
           Sample.device (or_introl eq_refl)).
Defined.

(** A sweep of two addresses with the HTTP transport. *)
Lemma summary_counts_witness :
  exists report,
    @main Sample.runtime (Sample.world Scenario.reply_identity Sample.line_ok)
      (Scenario.args_for_range "http") = Returns report /\
    devices_found (summary report) = 2%Z /\
    provisioning_count (summary report) = 2%Z /\
    length (mqtt_validation report) <= length (discovered_devices report).
Proof.
  eexists. split; [reflexivity|].
  destruct (@summary_counts Sample.runtime
              (Sample.world Scenario.reply_identity Sample.line_ok)
              (Scenario.args_for_range "http") _ eq_refl)
    as (H1 & H2 & _ & H4 & _).
  split; [exact H1|]. split; [exact H2 | exact H4].
Defined.

(** The sample run on one manual address without a transport. *)
Lemma no_transport_no_provisioning_witness :
  exists report,
    @main Sample.runtime (Sample.world Sample.reply_404 Sample.line_ok)
      (Sample.args "none") = Returns report /\
    provisioning_logs report = [] /\
    provisioning_count (summary report) = 0%Z.
Proof.
  eexists. split; [reflexivity|].
  destruct (@no_transport_no_provisioning Sample.runtime
              (Sample.world Sample.reply_404 Sample.line_ok) (Sample.args "none") _
              ltac:(discriminate) ltac:(discriminate) eq_refl) as (H1 & H2 & _).
  split; [exact H1 | exact H2].
Defined.

(** The sample run on one manual address with the HTTP transport. *)
Lemma http_provisions_every_device_witness :
  exists d0,
    DeviceInfo.ip d0 = "192.168.1.50" /\
    dict_get "192.168.1.50"
      [("192.168.1.50",
        provision_via_http (Sample.world Sample.reply_404 Sample.line_ok)
          Sample.device (Sample.args "http"))]
    = Some (provision_via_http (Sample.world Sample.reply_404 Sample.line_ok)
              d0 (Sample.args "http")).
Proof.
  apply (@http_provisions_every_device Sample.runtime
           (Sample.world Sample.reply_404 Sample.line_ok) (Sample.args "http")
           (final_report
              (Sample.world Sample.reply_404 Sample.line_ok) (Sample.args "http")
              [Sample.device]
              [("192.168.1.50",
                provision_via_http (Sample.world Sample.reply_404 Sample.line_ok)
                  Sample.device (Sample.args "http"))] [])
           eq_refl eq_refl Sample.device (or_introl eq_refl)).
Defined.

(** The serial transport on a machine that lists no serial port. *)
Lemma serial_run_shape_witness :
  exists report,
    @main Sample.runtime (Sample.world Sample.reply_404 Sample.line_ok)
      (Sample.args "serial") = Returns report /\
    provisioning_logs report = [] /\ discovered_devices report = [] /\
    mqtt_validation report = [].
Proof.
  eexists. split; [reflexivity|].
  apply (@serial_run_shape Sample.runtime
           (Sample.world Sample.reply_404 Sample.line_ok) (Sample.args "serial") _
           eq_refl eq_refl).
Defined.

(** A record of the sweep without topic, and an identity query that still
    has none. *)
Lemma unknown_topic_is_still_validated_witness :
  exists v,
    dict_get "192.168.1.1"
      (snd (@validate_all Sample.runtime
              (Sample.world Sample.reply_status_without_topic Sample.line_ok)
              (Sample.args "none") [identity_record "192.168.1.1" 80 []] []))
    = Some v /\
    v = @validate_mqtt_sensor Sample.runtime Sample.idle_session
          (Sample.args "none") (VStr "unknown") /\
    MqttValidationResult.topic v = "tele/unknown/SENSOR".
Proof.
  apply (@unknown_topic_is_still_validated Sample.runtime
           (Sample.world Sample.reply_status_without_topic Sample.line_ok)
           (Sample.args "none") [identity_record "192.168.1.1" 80 []]
           (identity_record "192.168.1.1" 80 [])
           (NoDup_cons _ (fun H : In _ [] => H) (NoDup_nil _))
           (or_introl eq_refl) eq_refl eq_refl).
Defined.

(** The sample run: the device answers 404 to the identity query. *)
Lemma manual_target_without_topic_is_skipped_witness :
  @main Sample.runtime (Sample.world Sample.reply_404 Sample.line_ok)
    (Sample.args "none")
  = Returns (final_report
               (Sample.world Sample.reply_404 Sample.line_ok) (Sample.args "none")
               [Sample.device] [] []).
Proof.
  apply (@manual_target_without_topic_is_skipped Sample.runtime
           (Sample.world Sample.reply_404 Sample.line_ok) (Sample.args "none")).
  - discriminate.
  - discriminate.
  - reflexivity.
  - reflexivity.
Defined.
